(** * Mangrove: the MANGROVE_CHILD* macro generator

    A shallow embedding of [buildscripts/generate_macros.py] and the
    properties of the text it generates.

    Python [str] values are [string]s, Python ints are [Z], an uncaught
    exception is the [Raise] branch of [outcome], and the two stateful
    layers of the script (a file object that is written to, and the process
    with its files and standard output) are state-and-error monads.

    Lists are first taken to be built at any length; [Module CPython] then
    gives [range] the two errors it has in CPython 2 for a list that is
    too long, and the functions of the script with it. *)

From Stdlib Require Import ZArith List Lia Bool Ascii String.
From Stdlib Require Import DecimalString DecimalZ DecimalFacts.
Import ListNotations.

Open Scope string_scope.
Open Scope Z_scope.

(* ================================================================= *)
(** ** Python values *)

Module Py.

(** The line feed and the double quote, which the literals below splice
    in where the script has them. *)
Definition nl : string := String "010"%char EmptyString.
Definition dq : string := String "034"%char EmptyString.

(** [str(z)], which is also what [%d] formats: decimal digits, with a
    leading minus sign for a negative number. *)
Definition str (z : Z) : string := NilZero.string_of_int (Z.to_int z).

(** The items of [range(start, stop)]; that the list can be built is the
    matter of [CPython.range], further down. *)
Definition range (start stop : Z) : list Z :=
  map (fun k => start + Z.of_nat k) (seq 0 (Z.to_nat (stop - start))).

(** The items of [range(start, stop, -1)]. *)
Definition range_down (start stop : Z) : list Z :=
  map (fun k => start - Z.of_nat k) (seq 0 (Z.to_nat (start - stop))).

(** [sep.join(parts)]. *)
Definition join (sep : string) (parts : list string) : string :=
  String.concat sep parts.

(** Exceptions the script can end with. *)
Inductive exn : Type :=
| ValueError (msg : string)
| AssertionError
| IndexError
| IOError
| OverflowError
| MemoryError
| SystemExit (code : option Z).

Inductive outcome (A : Type) : Type :=
| Ok (a : A)
| Raise (e : exn).

Arguments Ok {A} a.
Arguments Raise {A} e.

(** Computations over a state [S] that may raise. *)
Definition M (S A : Type) : Type := S -> outcome A * S.

Definition ret {S A : Type} (a : A) : M S A := fun s => (Ok a, s).

Definition raise {S A : Type} (e : exn) : M S A := fun s => (Raise e, s).

Definition bind {S A B : Type} (m : M S A) (f : A -> M S B) : M S B :=
  fun s =>
    match m s with
    | (Ok a, s') => f a s'
    | (Raise e, s') => (Raise e, s')
    end.

(** The result of evaluating an expression that touches no state. *)
Definition lift {S A : Type} (o : outcome A) : M S A := fun s => (o, s).

(** [for x in xs: body(x)]. *)
Fixpoint for_each {S A : Type} (xs : list A) (body : A -> M S unit) : M S unit :=
  match xs with
  | [] => ret tt
  | x :: xs' => bind (body x) (fun _ => for_each xs' body)
  end.

(** The exit status of the interpreter: an uncaught exception gives 1,
    [SystemExit] its code, and [SystemExit(None)] gives 0. *)
Definition exit_status {A : Type} (o : outcome A) : Z :=
  match o with
  | Ok _ => 0
  | Raise (SystemExit None) => 0
  | Raise (SystemExit (Some c)) => c
  | Raise _ => 1
  end.

(** *** [int(s)] on a [str]

    Base 10, as CPython 2 reads it: white space, an optional sign, white
    space again, at least one decimal digit, white space, end of string.
    Anything else is a [ValueError]. *)

Definition is_space (c : ascii) : bool :=
  let k := nat_of_ascii c in
  ((9 <=? k) && (k <=? 13))%nat || (k =? 32)%nat.

Definition is_digit (c : ascii) : bool :=
  let k := nat_of_ascii c in ((48 <=? k) && (k <=? 57))%nat.

Fixpoint skip_spaces (s : string) : string :=
  match s with
  | String c s' => if is_space c then skip_spaces s' else s
  | EmptyString => s
  end.

Fixpoint read_digits (acc : Z) (s : string) : Z * string :=
  match s with
  | String c s' =>
      if is_digit c
      then read_digits (10 * acc + (Z.of_nat (nat_of_ascii c) - 48)) s'
      else (acc, s)
  | EmptyString => (acc, s)
  end.

Definition starts_with_digit (s : string) : bool :=
  match s with
  | String c _ => is_digit c
  | EmptyString => false
  end.

Definition int (s : string) : outcome Z :=
  let bad := Raise (ValueError ("invalid literal for int() with base 10: " ++ s)) in
  let s1 := skip_spaces s in
  let '(negative, s2) :=
    match s1 with
    | String "-" r => (true, r)
    | String "+" r => (false, r)
    | _ => (false, s1)
    end in
  let s3 := skip_spaces s2 in
  if starts_with_digit s3 then
    let '(v, rest) := read_digits 0 s3 in
    match skip_spaces rest with
    | EmptyString => Ok (if negative then - v else v)
    | _ => bad
    end
  else bad.

End Py.

Import Py.

Declare Scope py_scope.
Delimit Scope py_scope with py.
Notation "x <- m ;; k" := (bind m (fun x => k))
  (at level 61, m at next level, right associativity) : py_scope.
Notation "m ;;; k" := (bind m (fun _ => k))
  (at level 61, right associativity) : py_scope.
Open Scope py_scope.

(* ================================================================= *)
(** ** The script *)

(** variable for storing maximum BSON nesting depth *)
Definition MAX_BSON_DEPTH : Z := 100.

(** A reference of what the generated macro should look like for n=3. *)
Definition REFERENCE_MACRO_3 : string :=
  "#define MANGROVE_CHILD3(base, field1, field2, field3) "
  ++ "make_nvp_with_parent(MANGROVE_KEY_BY_VALUE(&std::decay_t<typename decltype(MANGROVE_CHILD2("
  ++ "base, field1, field2))::child_base_type>::field3), "
  ++ "MANGROVE_CHILD2(base, field1, field2))".

(** The comma-separated names [field1, ..., field(n-1)]. *)
Definition prev_fields (n : Z) : string :=
  join ", " (map (fun i => "field" ++ str i) (range 1 n)).

Definition all_fields (n : Z) : string :=
  prev_fields n ++ ", field" ++ str n.

(** The value of [s] in [make_mangrove_child(n)]: the format string with
    its seven arguments filled in. *)
Definition child_text (n : Z) : string :=
  "#define MANGROVE_CHILD" ++ str n ++ "(base, " ++ all_fields n ++ ") "
  ++ "make_nvp_with_parent(MANGROVE_KEY_BY_VALUE(&std::decay_t<"
  ++ "typename decltype(MANGROVE_CHILD" ++ str (n - 1) ++ "(base, "
  ++ prev_fields n ++ "))::child_base_type>::field" ++ str n ++ "), "
  ++ "MANGROVE_CHILD" ++ str (n - 1) ++ "(base, " ++ prev_fields n ++ "))".

(** [make_mangrove_child(n)]: the text of the MANGROVE_CHILD<n> macro. *)
Definition make_mangrove_child (n : Z) : outcome string :=
  if n <? 2 then
    Raise (ValueError ("Argument n must be at least 2. Received n=" ++ str n ++ "."))
  else
    Ok (child_text n).

(** [test()], with the reference text it compares against made explicit. *)
Definition test_against (reference : string) : outcome unit :=
  match make_mangrove_child 3 with
  | Ok s => if String.eqb s reference then Ok tt else Raise AssertionError
  | Raise e => Raise e
  end.

Definition test : outcome unit := test_against REFERENCE_MACRO_3.

(** *** Writing to the output file

    The file object handed to [print_macros] is the state: the text written
    to it so far. *)

Definition write (text : string) : M string unit :=
  fun written => (Ok tt, written ++ text).

Definition header : string :=
  "// clang-format off" ++ nl
  ++ "        // Copyright 2016 MongoDB Inc." ++ nl
  ++ "        //" ++ nl
  ++ "        // Licensed under the Apache License, Version 2.0 (the " ++ dq ++ "License" ++ dq ++ ");" ++ nl
  ++ "        // you may not use this file except in compliance with the License." ++ nl
  ++ "        // You may obtain a copy of the License at" ++ nl
  ++ "        //" ++ nl
  ++ "        // http://www.apache.org/licenses/LICENSE-2.0" ++ nl
  ++ "        //" ++ nl
  ++ "        // Unless required by applicable law or agreed to in writing, software" ++ nl
  ++ "        // distributed under the License is distributed on an " ++ dq ++ "AS IS" ++ dq ++ " BASIS," ++ nl
  ++ "        // WITHOUT WARRANTIES OR CONDITIONS OF ANY KIND, either express or implied." ++ nl
  ++ "        // See the License for the specific language governing permissions and" ++ nl
  ++ "        // limitations under the License." ++ nl
  ++ nl
  ++ "        #pragma once" ++ nl
  ++ nl
  ++ "        #include <mangrove/config/prelude.hpp>" ++ nl
  ++ nl
  ++ "        // Preprocessor templates for manipulating multiple arguments." ++ nl
  ++ "        #define MANGROVE_PP_NARG(...) MANGROVE_PP_NARG_(__VA_ARGS__, MANGROVE_PP_RSEQ_N())" ++ nl
  ++ "        #define MANGROVE_PP_NARG_(...) MANGROVE_PP_ARG_N(__VA_ARGS__)" ++ nl
  ++ "        ".

Definition footer : string :=
  nl
  ++ nl
  ++ "        #include <mangrove/config/postlude.hpp>" ++ nl
  ++ "    // clang-format on".

(** The placeholders [_0, ], [_1, ], ... of the selector macro. *)
Definition arg_n_placeholders (max_n : Z) : list string :=
  map (fun n => "_" ++ str n ++ ", ") (range 0 (max_n + 2)).

(** The integers the reverse-sequence macro enumerates. *)
Definition rseq_numbers (max_n : Z) : list Z := range_down (max_n + 2) (-1).

Definition child1_line : string :=
  "#define MANGROVE_CHILD1(base, field1) MANGROVE_KEY_BY_VALUE(&base::field1)" ++ nl ++ nl.

(** [print_macros(outfile, max_n)]. *)
Definition print_macros (max_n : Z) : M string unit :=
  write header ;;;
  let num_seq := join EmptyString (arg_n_placeholders max_n) in
  write ("#define MANGROVE_PP_ARG_N(" ++ num_seq ++ " N, ...) N" ++ nl ++ nl) ;;;
  let num_seq := join ", " (map str (rseq_numbers max_n)) in
  write ("#define MANGROVE_PP_RSEQ_N() " ++ num_seq ++ nl ++ nl) ;;;
  write child1_line ;;;
  for_each (range 2 (max_n + 1)) (fun i =>
    s <- lift (make_mangrove_child i) ;;
    write s ;;;
    write (nl ++ nl)) ;;;
  write footer ;;;
  write nl.

(** *** The process: files and standard output *)

Record world : Type := mkWorld {
  files : string -> option string;   (* the content of each existing file *)
  writable : string -> bool;         (* whether open(path, "w") succeeds *)
  stdout : string
}.

Definition set_file (path : string) (content : string) (w : world) : world :=
  mkWorld (fun p => if String.eqb p path then Some content else files w p)
          (writable w) (stdout w).

(** [print(s)]. *)
Definition print (s : string) : M world unit :=
  fun w => (Ok tt, mkWorld (files w) (writable w) (stdout w ++ s ++ nl)).

(** [open(path, "w")]: the file is created or truncated; the file object
    is known by its path. *)
Definition open_w (path : string) : M world string :=
  fun w =>
    if writable w path then (Ok path, set_file path EmptyString w)
    else (Raise IOError, w).

(** Running code that writes to the open file [path]. *)
Definition on_file {A : Type} (path : string) (m : M string A) : M world A :=
  fun w =>
    match files w path with
    | Some written => let '(o, written') := m written in (o, set_file path written' w)
    | None => (Raise (ValueError "I/O operation on closed file"), w)
    end.

Definition usage : M world unit :=
  print "Usage: python generate_macros.py <outfile> [max_depth]" ;;;
  print "Generates 'max_depth' levels of the MANGROVE_CHILD* macro, and write the output " ;;;
  print "to 'outfile'. " ;;;
  raise (SystemExit None).

(** [main()], with [sys.argv] and the reference text of [test] as
    arguments. *)
Definition main_with (reference : string) (argv : list string) : M world unit :=
  lift (test_against reference) ;;;
  let args := tl argv in
  (if negb ((List.length args =? 1)%nat || (List.length args =? 2)%nat) then usage else ret tt) ;;;
  outfile <- match args with
             | a0 :: _ => open_w a0
             | [] => raise IndexError
             end ;;
  if (List.length args =? 2)%nat then
    max_n <- lift (int (nth 1 args EmptyString)) ;;
    on_file outfile (print_macros max_n)
  else
    on_file outfile (print_macros MAX_BSON_DEPTH).

Definition main (argv : list string) : M world unit :=
  main_with REFERENCE_MACRO_3 argv.

(** The text [print_macros] writes to a fresh file. *)
Definition document (max_n : Z) : string := snd (print_macros max_n EmptyString).

(* ================================================================= *)
(** ** Texts: prefixes, occurrences, substrings *)

Module Text.

(** [s.startswith(p)]. *)
Fixpoint starts_with (p s : string) : bool :=
  match p with
  | EmptyString => true
  | String c p' =>
      match s with
      | String d s' => Ascii.eqb c d && starts_with p' s'
      | EmptyString => false
      end
  end.

(** The number of positions of [s] at which [p] occurs. *)
Fixpoint occurrences (p s : string) : nat :=
  ((if starts_with p s then 1 else 0)
   + match s with
     | String _ s' => occurrences p s'
     | EmptyString => 0
     end)%nat.

(** [p in s], decided by a scan. *)
Fixpoint substringb (p s : string) : bool :=
  starts_with p s
  || match s with
     | String _ s' => substringb p s'
     | EmptyString => false
     end.

(** [p] is a contiguous substring of [s]. *)
Definition substring_of (p s : string) : Prop :=
  exists a b, s = a ++ p ++ b.

(** Every character of [s] satisfies [P]. *)
Fixpoint all_chars (P : ascii -> bool) (s : string) : bool :=
  match s with
  | EmptyString => true
  | String c s' => P c && all_chars P s'
  end.

Definition other_than (c : ascii) : ascii -> bool :=
  fun d => negb (Ascii.eqb d c).

(** The characters [str] produces: digits and the minus sign. *)
Definition decimal_char (c : ascii) : bool := is_digit c || Ascii.eqb c "-".

(** [p] and [s] differ at a position both have. *)
Fixpoint clash (p s : string) : bool :=
  match p, s with
  | String c p', String d s' => if Ascii.eqb c d then clash p' s' else true
  | _, _ => false
  end.

(** At every position of [a], [p] is ruled out by the characters of [a]
    alone. *)
Fixpoint clear_of (p a : string) : bool :=
  match a with
  | EmptyString => true
  | String _ a' => clash p a && clear_of p a'
  end.

(** The concatenation of a list of texts. *)
Fixpoint cat (parts : list string) : string :=
  match parts with
  | [] => EmptyString
  | x :: xs => x ++ cat xs
  end.

(** [a] contributes exactly [k] occurrences of [p] to any text it begins. *)
Definition hits (p : string) (k : nat) (a : string) : Prop :=
  forall b, occurrences p (a ++ b) = (k + occurrences p b)%nat.

End Text.

Import Text.

(* ================================================================= *)
(** ** The parts of the generated document *)

(** The two definitions of the counting-macro pair, as [print_macros]
    writes them. *)
Definition arg_n_line (max_n : Z) : string :=
  "#define MANGROVE_PP_ARG_N(" ++ join EmptyString (arg_n_placeholders max_n)
  ++ " N, ...) N" ++ nl ++ nl.

Definition rseq_line (max_n : Z) : string :=
  "#define MANGROVE_PP_RSEQ_N() " ++ join ", " (map str (rseq_numbers max_n))
  ++ nl ++ nl.

(** What the loop of [print_macros] writes: one entry per depth from 2. *)
Definition variant_lines (max_n : Z) : list string :=
  map (fun i => child_text i ++ nl ++ nl) (range 2 (max_n + 1)).

(** The child-macro section: the fixed depth-1 line, then the variants. *)
Definition children (max_n : Z) : string :=
  child1_line ++ cat (variant_lines max_n).

(** The trailing boilerplate: the last two writes. *)
Definition trailer : string := footer ++ nl.

(** The document without its trailing boilerplate. *)
Definition document_sans_trailer (max_n : Z) : string :=
  header ++ arg_n_line max_n ++ rseq_line max_n ++ children max_n.

(** The name of the variant of depth [k]. *)
Definition family_name (k : Z) : string := "MANGROVE_CHILD" ++ str k.

(** A use of variant [n - 1] on [base, field1, ..., field(n-1)]. *)
Definition parent_call (n : Z) : string :=
  family_name (n - 1) ++ "(base, " ++ prev_fields n ++ ")".

(** Variant [n] is a macro head followed by a body. *)
Definition child_head (n : Z) : string :=
  "#define " ++ family_name n ++ "(base, " ++ all_fields n ++ ") ".

Definition child_body (n : Z) : string :=
  "make_nvp_with_parent(MANGROVE_KEY_BY_VALUE(&std::decay_t<typename decltype("
  ++ parent_call n ++ ")::child_base_type>::field" ++ str n ++ "), "
  ++ parent_call n ++ ")".

(** How a definition of a child macro starts, how the definition of the
    depth-1 macro starts, and how the two counting macros start. *)
Definition def_child : string := "#define MANGROVE_CHILD".
Definition def_child1 : string := "#define MANGROVE_CHILD1(".
Definition def_arg_n : string := "#define MANGROVE_PP_ARG_N(".
Definition def_rseq : string := "#define MANGROVE_PP_RSEQ_N(".

(** What follows the opening parenthesis in the entry of depth [i]. *)
Definition variant_rest (i : Z) : string :=
  "base, " ++ all_fields i ++ ") "
  ++ "make_nvp_with_parent(MANGROVE_KEY_BY_VALUE(&std::decay_t<"
  ++ "typename decltype(MANGROVE_CHILD" ++ str (i - 1) ++ "(base, "
  ++ prev_fields i ++ "))::child_base_type>::field" ++ str i ++ "), "
  ++ "MANGROVE_CHILD" ++ str (i - 1) ++ "(base, " ++ prev_fields i ++ "))"
  ++ nl ++ nl.

(** What [usage] prints. *)
Definition usage_text : string :=
  "Usage: python generate_macros.py <outfile> [max_depth]" ++ nl
  ++ "Generates 'max_depth' levels of the MANGROVE_CHILD* macro, and write the output " ++ nl
  ++ "to 'outfile'. " ++ nl.

(** [w'] is [w] with [text] as the content of [path], and nothing else
    changed. *)
Definition wrote (path text : string) (w w' : world) : Prop :=
  (forall p, files w' p = if String.eqb p path then Some text else files w p)
  /\ writable w' = writable w
  /\ stdout w' = stdout w.

(** No file of [w'] differs from [w]. *)
Definition same_files (w w' : world) : Prop :=
  forall p, files w' p = files w p.

(** A world to run examples in: no files yet, every path can be opened
    except the empty one. *)
Definition empty_world : world :=
  mkWorld (fun _ => None) (fun p => negb (String.eqb p EmptyString)) EmptyString.

(** The names [field1, ..., fieldn]. *)
Definition field_names (n : Z) : list string :=
  map (fun i => "field" ++ str i) (range 1 (n + 1)).

(** How the definition of the child macro of depth [k] starts. *)
Definition def_child_k (k : Z) : string := def_child ++ str k ++ "(".

(** The entries of the child-macro section, depth 1 first. *)
Definition child_entries (max_n : Z) : list string :=
  child1_line :: variant_lines max_n.

(** The nesting depth of parentheses at the end of [s] when it is [depth]
    at its start; [None] when some closing parenthesis has no opening
    one. *)
Fixpoint paren_scan (depth : nat) (s : string) : option nat :=
  match s with
  | EmptyString => Some depth
  | String c s' =>
      if Ascii.eqb c "(" then paren_scan (S depth) s'
      else if Ascii.eqb c ")" then
        match depth with
        | O => None
        | S d => paren_scan d s'
        end
      else paren_scan depth s'
  end.

(** The parentheses of [s] match. *)
Definition balanced (s : string) : Prop := paren_scan 0 s = Some 0%nat.

(* ================================================================= *)
(** ** The script under the limits of CPython 2

    The definitions above let [range] build a list of any length.  In
    CPython 2, [range] returns a list and raises an [OverflowError] when
    the number of items does not fit a C long, and a [MemoryError] when a
    list of that many items cannot be allocated.  The definitions below
    are the same functions with these two errors; the memory that strings
    and the output file take is still not counted. *)

Module CPython.

(** What bounds a list: [sys.maxint], the largest C long, and the largest
    number of items a list can be allocated for. *)
Record limits : Type := mkLimits {
  maxint : N;
  capacity : N
}.

(** A 64-bit build with memory to spare, where a list holds up to
    [PY_SSIZE_T_MAX / 8] items. *)
Definition limits64 : limits :=
  mkLimits 9223372036854775807 1152921504606846975.

(** The longest list [range] can return. *)
Definition list_limit (lim : limits) : Z :=
  Z.min (Z.of_N (maxint lim)) (Z.of_N (capacity lim)).

(** Building the list [items], which has [len] items when [len] is
    positive. *)
Definition build (lim : limits) (len : Z) (items : list Z) : outcome (list Z) :=
  if Z.of_N (maxint lim) <? len then Raise OverflowError
  else if Z.of_N (capacity lim) <? len then Raise MemoryError
  else Ok items.

(** [range(start, stop)]. *)
Definition range (lim : limits) (start stop : Z) : outcome (list Z) :=
  build lim (stop - start) (Py.range start stop).

(** [range(start, stop, -1)]. *)
Definition range_down (lim : limits) (start stop : Z) : outcome (list Z) :=
  build lim (start - stop) (Py.range_down start stop).

(** [make_mangrove_child(n)]. *)
Definition make_mangrove_child (lim : limits) (n : Z) : outcome string :=
  if n <? 2 then
    Raise (ValueError ("Argument n must be at least 2. Received n=" ++ str n ++ "."))
  else
    match range lim 1 n with
    | Raise e => Raise e
    | Ok numbers =>
        let prev_fields := join ", " (map (fun i => "field" ++ str i) numbers) in
        let all_fields := prev_fields ++ ", field" ++ str n in
        Ok ("#define MANGROVE_CHILD" ++ str n ++ "(base, " ++ all_fields ++ ") "
            ++ "make_nvp_with_parent(MANGROVE_KEY_BY_VALUE(&std::decay_t<"
            ++ "typename decltype(MANGROVE_CHILD" ++ str (n - 1) ++ "(base, "
            ++ prev_fields ++ "))::child_base_type>::field" ++ str n ++ "), "
            ++ "MANGROVE_CHILD" ++ str (n - 1) ++ "(base, " ++ prev_fields ++ "))")
    end.

(** [test()], with the reference text made explicit. *)
Definition test_against (lim : limits) (reference : string) : outcome unit :=
  match make_mangrove_child lim 3 with
  | Ok s => if String.eqb s reference then Ok tt else Raise AssertionError
  | Raise e => Raise e
  end.

(** [print_macros(outfile, max_n)]. *)
Definition print_macros (lim : limits) (max_n : Z) : M string unit :=
  write header ;;;
  numbers <- lift (range lim 0 (max_n + 2)) ;;
  let num_seq := join EmptyString (map (fun n => "_" ++ str n ++ ", ") numbers) in
  write ("#define MANGROVE_PP_ARG_N(" ++ num_seq ++ " N, ...) N" ++ nl ++ nl) ;;;
  numbers <- lift (range_down lim (max_n + 2) (-1)) ;;
  let num_seq := join ", " (map str numbers) in
  write ("#define MANGROVE_PP_RSEQ_N() " ++ num_seq ++ nl ++ nl) ;;;
  write child1_line ;;;
  depths <- lift (range lim 2 (max_n + 1)) ;;
  for_each depths (fun i =>
    s <- lift (make_mangrove_child lim i) ;;
    write s ;;;
    write (nl ++ nl)) ;;;
  write footer ;;;
  write nl.

(** [main()]. *)
Definition main_with (lim : limits) (reference : string) (argv : list string)
  : M world unit :=
  lift (test_against lim reference) ;;;
  let args := tl argv in
  (if negb ((List.length args =? 1)%nat || (List.length args =? 2)%nat) then usage else ret tt) ;;;
  outfile <- match args with
             | a0 :: _ => open_w a0
             | [] => raise IndexError
             end ;;
  if (List.length args =? 2)%nat then
    max_n <- lift (int (nth 1 args EmptyString)) ;;
    on_file outfile (print_macros lim max_n)
  else
    on_file outfile (print_macros lim MAX_BSON_DEPTH).

Definition main (lim : limits) (argv : list string) : M world unit :=
  main_with lim REFERENCE_MACRO_3 argv.

End CPython.

(** A depth beyond any C long. *)
Definition huge : Z := 1000000000000000000000000000000.

(** A world in which [out.hpp] already holds the document of depth 3. *)
Definition world_with_output : world :=
  set_file "out.hpp" (document 3) empty_world.

(* ================================================================= *)
(** ** Examples *)

Example str_examples :
  str 0 = "0" /\ str 7 = "7" /\ str 100 = "100" /\ str (-12) = "-12".
Proof. repeat split. Qed.

Example int_examples :
  int " 42 " = Ok 42 /\ int "-3" = Ok (-3) /\ int "007" = Ok 7
  /\ exit_status (int "abc") = 1 /\ exit_status (int EmptyString) = 1.
Proof. repeat split. Qed.

Example range_examples :
  range 1 3 = [1; 2] /\ range 2 2 = [] /\ range 0 (-5) = []
  /\ range_down 3 (-1) = [3; 2; 1; 0] /\ range_down (-2) (-1) = [].
Proof. repeat split. Qed.

Example occurrences_examples :
  occurrences "ab" "abcabab" = 3%nat /\ occurrences "aa" "aaa" = 2%nat
  /\ substringb "cab" "abcabab" = true /\ substringb "cc" "abcabab" = false.
Proof. repeat split. Qed.

(* ================================================================= *)
(** ** Facts about texts *)

Section TextFacts.

Lemma append_nil_r (s : string) : s ++ EmptyString = s.
Proof. induction s as [|c s IH]; simpl; [reflexivity | now rewrite IH]. Qed.

Lemma append_assoc (a b c : string) : (a ++ b) ++ c = a ++ (b ++ c).
Proof. induction a as [|x a IH]; simpl; [reflexivity | now rewrite IH]. Qed.

Lemma cat_app (xs ys : list string) : cat (xs ++ ys)%list = cat xs ++ cat ys.
Proof.
  induction xs as [|x xs IH]; simpl; [reflexivity|].
  now rewrite IH, append_assoc.
Qed.

Lemma starts_with_app (p r : string) : starts_with p (p ++ r) = true.
Proof.
  induction p as [|c p IH]; simpl; [reflexivity|].
  now rewrite Ascii.eqb_refl, IH.
Qed.

Lemma starts_with_app_r (p s b : string) :
  starts_with p s = true -> starts_with p (s ++ b) = true.
Proof.
  revert s. induction p as [|c p IH]; simpl; intros s H; [reflexivity|].
  destruct s as [|d s]; [discriminate|]. simpl.
  apply andb_true_iff in H as [H1 H2]. now rewrite H1, (IH _ H2).
Qed.

Lemma starts_with_same (p q s : string) :
  starts_with (p ++ q) (p ++ s) = starts_with q s.
Proof.
  induction p as [|c p IH]; simpl; [reflexivity|].
  now rewrite Ascii.eqb_refl, IH.
Qed.

Lemma starts_with_iff (p s : string) :
  starts_with p s = true <-> exists r, s = p ++ r.
Proof.
  split.
  - revert s. induction p as [|c p IH]; simpl; intros s H.
    + now exists s.
    + destruct s as [|d s]; [discriminate|].
      apply andb_true_iff in H as [H1 H2].
      apply Ascii.eqb_eq in H1. subst d.
      destruct (IH _ H2) as [r ->]. now exists r.
  - intros [r ->]. apply starts_with_app.
Qed.

Lemma substringb_iff (p s : string) :
  substringb p s = true <-> substring_of p s.
Proof.
  unfold substring_of. split.
  - induction s as [|c s IH]; simpl; intros H.
    + apply orb_true_iff in H as [H|H]; [|discriminate].
      apply starts_with_iff in H as [r Hr]. now exists EmptyString, r.
    + apply orb_true_iff in H as [H|H].
      * apply starts_with_iff in H as [r Hr]. now exists EmptyString, r.
      * destruct (IH H) as (a & b & ->). now exists (String c a), b.
  - intros (a & b & ->). induction a as [|c a IH]; simpl.
    + pose proof (starts_with_app p b) as H.
      destruct (p ++ b); simpl in *; now rewrite H.
    + rewrite IH. apply orb_true_r.
Qed.

Lemma all_chars_app (P : ascii -> bool) (a b : string) :
  all_chars P (a ++ b) = all_chars P a && all_chars P b.
Proof.
  induction a as [|c a IH]; simpl; [reflexivity|].
  now rewrite IH, andb_assoc.
Qed.

Lemma all_chars_weaken (P Q : ascii -> bool) (s : string) :
  (forall c, P c = true -> Q c = true) ->
  all_chars P s = true -> all_chars Q s = true.
Proof.
  intros HPQ. induction s as [|c s IH]; simpl; [reflexivity|].
  intros H. apply andb_true_iff in H as [H1 H2].
  now rewrite (HPQ _ H1), (IH H2).
Qed.

Lemma all_chars_concat (P : ascii -> bool) (sep : string) (parts : list string) :
  all_chars P sep = true ->
  Forall (fun x => all_chars P x = true) parts ->
  all_chars P (join sep parts) = true.
Proof.
  intros Hsep. unfold join. induction 1 as [|x xs Hx Hxs IH]; [reflexivity|].
  simpl. destruct xs as [|y ys]; [exact Hx|].
  now rewrite !all_chars_app, Hx, Hsep, IH.
Qed.

Lemma clash_starts_with (p q s b : string) :
  clash p s = true -> starts_with (p ++ q) (s ++ b) = false.
Proof.
  revert s. induction p as [|c p IH]; simpl; intros s H; [discriminate|].
  destruct s as [|d s]; [discriminate|]. simpl.
  destruct (Ascii.eqb c d); [|reflexivity]. simpl. now apply IH.
Qed.

Lemma hits_nil (p : string) : hits p 0 EmptyString.
Proof. intros b. reflexivity. Qed.

Lemma hits_app (p : string) (j k : nat) (a b : string) :
  hits p j a -> hits p k b -> hits p (j + k) (a ++ b).
Proof.
  intros Ha Hb c. rewrite append_assoc, Ha, Hb. lia.
Qed.

Lemma hits_clear (p q a : string) :
  clear_of p a = true -> hits (p ++ q) 0 a.
Proof.
  intros H b. induction a as [|c a IH]; [reflexivity|].
  simpl in H. apply andb_true_iff in H as [H1 H2].
  change (String c a ++ b) with (String c (a ++ b)).
  change (occurrences (p ++ q) (String c (a ++ b)))
    with ((if starts_with (p ++ q) (String c a ++ b) then 1 else 0)
          + occurrences (p ++ q) (a ++ b))%nat.
  now rewrite (clash_starts_with p q _ b H1), (IH H2).
Qed.

Lemma hits_without (c : ascii) (p a : string) :
  all_chars (other_than c) a = true -> hits (String c p) 0 a.
Proof.
  intros H b. induction a as [|d a IH]; [reflexivity|].
  simpl in H. apply andb_true_iff in H as [H1 H2].
  simpl. unfold other_than in H1. apply negb_true_iff in H1.
  rewrite Ascii.eqb_sym in H1. rewrite H1. simpl. now apply IH.
Qed.

Lemma hits_first (p : string) (k : nat) (c : ascii) (a : string) :
  starts_with p (String c a) = true -> hits p k a -> hits p (S k) (String c a).
Proof.
  intros Hp Ha b.
  change (occurrences p (String c a ++ b))
    with ((if starts_with p (String c a ++ b) then 1 else 0)
          + occurrences p (a ++ b))%nat.
  now rewrite (starts_with_app_r _ _ b Hp), Ha.
Qed.

Lemma hits_cat (p : string) (k : nat) (parts : list string) :
  Forall (hits p k) parts -> hits p (k * List.length parts) (cat parts).
Proof.
  induction 1 as [|x xs Hx Hxs IH]; simpl.
  - rewrite Nat.mul_0_r. apply hits_nil.
  - replace (k * S (List.length xs))%nat with (k + k * List.length xs)%nat by lia.
    now apply hits_app.
Qed.

Lemma hits_total (p : string) (k : nat) (a : string) :
  p <> EmptyString -> hits p k a -> occurrences p a = k.
Proof.
  intros Hp H. specialize (H EmptyString). rewrite append_nil_r in H.
  rewrite H. destruct p; [congruence|]. simpl. lia.
Qed.

End TextFacts.

(* ================================================================= *)
(** ** Facts about [str] and [range] *)

Section PyFacts.

Lemma uint_digits (d : Decimal.uint) :
  all_chars is_digit (NilEmpty.string_of_uint d) = true.
Proof. induction d; simpl; auto. Qed.

Lemma nilzero_digits (d : Decimal.uint) :
  all_chars is_digit (NilZero.string_of_uint d) = true.
Proof. destruct d; try reflexivity; apply (uint_digits (_ d)). Qed.

Lemma str_digits (n : Z) : 0 <= n -> all_chars is_digit (str n) = true.
Proof.
  intros Hn. unfold str. destruct n as [|p|p]; [reflexivity| |lia].
  apply nilzero_digits.
Qed.

Lemma str_decimal (n : Z) : all_chars decimal_char (str n) = true.
Proof.
  assert (W : forall d, all_chars decimal_char (NilZero.string_of_uint d) = true).
  { intros d. apply (all_chars_weaken is_digit); [|apply nilzero_digits].
    intros c Hc. unfold decimal_char. now rewrite Hc. }
  unfold str. destruct n as [|p|p]; simpl; [reflexivity|apply W|].
  apply (W (Pos.to_uint p)).
Qed.

(** A character that is neither a digit nor the minus sign does not occur
    in [str n]. *)
Lemma str_without (c : ascii) (n : Z) :
  decimal_char c = false -> all_chars (other_than c) (str n) = true.
Proof.
  intros Hc. apply (all_chars_weaken decimal_char); [|apply str_decimal].
  intros d Hd. unfold other_than. apply negb_true_iff.
  destruct (Ascii.eqb_spec d c) as [->|]; [congruence|reflexivity].
Qed.

Lemma str_inj (a b : Z) : str a = str b -> a = b.
Proof.
  unfold str. intros H.
  assert (N : forall z, Z.to_int z <> Decimal.Pos Decimal.Nil
                        /\ Z.to_int z <> Decimal.Neg Decimal.Nil).
  { intros [|p|p]; simpl; split; try discriminate;
      intros [= E]; now apply (DecimalPos.Unsigned.to_uint_nonnil p). }
  apply (f_equal NilZero.int_of_string) in H.
  rewrite !NilZero.isi in H by apply N.
  injection H as H. now apply DecimalZ.to_int_inj.
Qed.

Lemma str_nonempty (n : Z) : str n <> EmptyString.
Proof.
  unfold str. destruct n as [|p|p]; simpl; try discriminate.
  pose proof (DecimalPos.Unsigned.to_uint_nonnil p) as H.
  destruct (Pos.to_uint p); simpl; congruence.
Qed.

(** The decimal text of a number from 2 on is not [1] followed by
    something that is not a digit. *)
Lemma str_not_one (n : Z) (c : ascii) (q r : string) :
  2 <= n -> is_digit c = false ->
  starts_with (String "1" (String c q)) (str n ++ String c r) = false.
Proof.
  intros Hn Hc.
  pose proof (str_digits n ltac:(lia)) as Hd.
  assert (H1 : str n <> str 1) by (intros E; apply str_inj in E; lia).
  destruct (str n) as [|d s] eqn:E; [now apply str_nonempty in E|].
  simpl in Hd. apply andb_true_iff in Hd as [Hd Hs].
  change (String d s ++ String c r) with (String d (s ++ String c r)).
  cbn [starts_with].
  destruct (Ascii.eqb_spec "1" d) as [<-|]; [|reflexivity].
  destruct s as [|e s]; [now elim H1|].
  simpl in Hs. apply andb_true_iff in Hs as [He _].
  cbn [append starts_with andb].
  destruct (Ascii.eqb_spec c e) as [->|]; [congruence|reflexivity].
Qed.

Lemma range_length (a b : Z) : List.length (range a b) = Z.to_nat (b - a).
Proof. unfold range. now rewrite length_map, length_seq. Qed.

Lemma range_In (a b i : Z) : In i (range a b) <-> a <= i < b.
Proof.
  unfold range. rewrite in_map_iff. split.
  - intros (k & <- & Hk). apply in_seq in Hk. lia.
  - intros H. exists (Z.to_nat (i - a)). split; [lia|].
    apply in_seq. lia.
Qed.

Lemma range_nth (a b : Z) (k : nat) :
  (k < Z.to_nat (b - a))%nat -> nth k (range a b) 0 = a + Z.of_nat k.
Proof.
  intros Hk. unfold range.
  set (f := fun j : nat => a + Z.of_nat j).
  rewrite (nth_indep _ 0 (f 0%nat)) by now rewrite length_map, length_seq.
  rewrite map_nth, seq_nth by exact Hk. reflexivity.
Qed.

Lemma range_snoc (a b : Z) : a <= b -> range a (b + 1) = (range a b ++ [b])%list.
Proof.
  intros H. unfold range.
  replace (Z.to_nat (b + 1 - a)) with (S (Z.to_nat (b - a))) by lia.
  rewrite seq_S, map_app. simpl. do 2 f_equal. lia.
Qed.

Lemma range_down_length (a b : Z) :
  List.length (range_down a b) = Z.to_nat (a - b).
Proof. unfold range_down. now rewrite length_map, length_seq. Qed.

Lemma range_down_nth (a b : Z) (k : nat) :
  (k < Z.to_nat (a - b))%nat -> nth k (range_down a b) 0 = a - Z.of_nat k.
Proof.
  intros Hk. unfold range_down.
  set (f := fun j : nat => a - Z.of_nat j).
  rewrite (nth_indep _ 0 (f 0%nat)) by now rewrite length_map, length_seq.
  rewrite map_nth, seq_nth by exact Hk. reflexivity.
Qed.

End PyFacts.

(* ================================================================= *)
(** ** What [print_macros] writes *)

Section Running.

Lemma make_mangrove_child_ok (n : Z) :
  2 <= n -> make_mangrove_child n = Ok (child_text n).
Proof.
  intros H. unfold make_mangrove_child.
  destruct (Z.ltb_spec n 2); [lia|reflexivity].
Qed.

Lemma make_mangrove_child_raises (n : Z) :
  n < 2 ->
  make_mangrove_child n
  = Raise (ValueError ("Argument n must be at least 2. Received n=" ++ str n ++ ".")).
Proof.
  intros H. unfold make_mangrove_child.
  destruct (Z.ltb_spec n 2); [reflexivity|lia].
Qed.

(** The loop over depths that are all at least 2 writes one entry per
    depth, in order, and does not raise. *)
Lemma loop_run (xs : list Z) (written : string) :
  (forall i, In i xs -> 2 <= i) ->
  for_each xs (fun i =>
    s <- lift (make_mangrove_child i) ;;
    write s ;;;
    write (nl ++ nl)) written
  = (Ok tt, written ++ cat (map (fun i => child_text i ++ nl ++ nl) xs)).
Proof.
  revert written. induction xs as [|x xs IH]; intros written Hxs.
  - simpl. unfold ret. now rewrite append_nil_r.
  - cbn [for_each map cat]. unfold bind at 1. unfold bind at 1.
    unfold lift at 1. rewrite make_mangrove_child_ok by (apply Hxs; now left).
    unfold bind at 1. unfold write at 1 2.
    rewrite IH by (intros i Hi; apply Hxs; now right).
    now rewrite !append_assoc.
Qed.

Lemma print_macros_run (max_n : Z) (written : string) :
  print_macros max_n written
  = (Ok tt, written ++ document_sans_trailer max_n ++ trailer).
Proof.
  unfold print_macros, bind, write.
  rewrite loop_run by (intros i Hi; apply range_In in Hi; lia).
  unfold document_sans_trailer, children, variant_lines, arg_n_line, rseq_line, trailer.
  now rewrite !append_assoc.
Qed.

Lemma document_eq (max_n : Z) :
  document max_n = document_sans_trailer max_n ++ trailer.
Proof. unfold document. now rewrite print_macros_run. Qed.

Lemma child_text_eq (n : Z) : child_text n = child_head n ++ child_body n.
Proof.
  unfold child_text, child_head, child_body, parent_call, family_name.
  now rewrite !append_assoc.
Qed.

End Running.

(* ================================================================= *)
(** ** Counting definitions in the document *)

Section Census.

Lemma prev_fields_without (c : ascii) (n : Z) :
  decimal_char c = false ->
  all_chars (other_than c) "field, " = true ->
  all_chars (other_than c) (prev_fields n) = true.
Proof.
  intros Hc Hf. unfold prev_fields.
  change "field, " with ("field" ++ ", ") in Hf.
  rewrite all_chars_app in Hf. apply andb_true_iff in Hf as [Hf Hs].
  apply all_chars_concat; [exact Hs|].
  apply Forall_forall. intros x Hx. apply in_map_iff in Hx as (i & <- & _).
  now rewrite all_chars_app, Hf, str_without.
Qed.

Lemma placeholders_without (c : ascii) (n : Z) :
  decimal_char c = false ->
  all_chars (other_than c) "_, " = true ->
  all_chars (other_than c) (join EmptyString (arg_n_placeholders n)) = true.
Proof.
  intros Hc Hf. unfold arg_n_placeholders.
  apply all_chars_concat; [reflexivity|].
  apply Forall_forall. intros x Hx. apply in_map_iff in Hx as (i & <- & _).
  change "_, " with ("_" ++ ", ") in Hf. rewrite all_chars_app in Hf.
  apply andb_true_iff in Hf as [Hf Hs].
  now rewrite !all_chars_app, Hf, Hs, str_without.
Qed.

Lemma rseq_without (c : ascii) (n : Z) :
  decimal_char c = false ->
  all_chars (other_than c) ", " = true ->
  all_chars (other_than c) (join ", " (map str (rseq_numbers n))) = true.
Proof.
  intros Hc Hs. apply all_chars_concat; [exact Hs|].
  apply Forall_forall. intros x Hx. apply in_map_iff in Hx as (i & <- & _).
  now apply str_without.
Qed.

Lemma hits_miss (p : string) (c : ascii) (a : string) :
  (forall b, starts_with p (String c a ++ b) = false) ->
  hits p 0 a -> hits p 0 (String c a).
Proof.
  intros Hp Ha b.
  change (occurrences p (String c a ++ b))
    with ((if starts_with p (String c a ++ b) then 1 else 0)
          + occurrences p (a ++ b))%nat.
  now rewrite Hp, Ha.
Qed.

(** A chunk that has its only [#] in front counts once for a pattern it
    starts with... *)
Lemma hits_define_yes (p lit rest : string) :
  starts_with (String "#" p) (String "#" lit) = true ->
  all_chars (other_than "#") (lit ++ rest) = true ->
  hits (String "#" p) 1 (String "#" lit ++ rest).
Proof.
  intros Hp Hr. apply (hits_first _ 0 "#" (lit ++ rest)).
  - now apply (starts_with_app_r _ (String "#" lit) rest).
  - now apply hits_without.
Qed.

(** ... and not at all for a pattern that its fixed beginning rules out. *)
Lemma hits_define_no (p lit rest : string) :
  clash (String "#" p) (String "#" lit) = true ->
  all_chars (other_than "#") (lit ++ rest) = true ->
  hits (String "#" p) 0 (String "#" lit ++ rest).
Proof.
  intros Hp Hr. apply (hits_miss _ "#" (lit ++ rest)).
  - intros b.
    change (String "#" (lit ++ rest) ++ b) with ((String "#" lit ++ rest) ++ b).
    rewrite append_assoc, <- (append_nil_r (String "#" p)).
    now apply clash_starts_with.
  - now apply hits_without.
Qed.

(** The occurrences of a pattern in the document, from those in its
    parts. *)
Lemma document_census (p : string) (n : Z) (kh ka kr k1 kv kt : nat) :
  p <> EmptyString ->
  hits p kh header ->
  hits p ka (arg_n_line n) ->
  hits p kr (rseq_line n) ->
  hits p k1 child1_line ->
  Forall (hits p kv) (variant_lines n) ->
  hits p kt trailer ->
  occurrences p (document n)
  = (kh + (ka + (kr + (k1 + kv * List.length (variant_lines n)))) + kt)%nat.
Proof.
  intros Hp Hh Ha Hr H1 Hv Ht. apply hits_total; [exact Hp|].
  rewrite document_eq. unfold document_sans_trailer, children.
  repeat apply hits_app; try assumption. now apply hits_cat.
Qed.

Lemma variant_lines_length (n : Z) :
  List.length (variant_lines n) = Z.to_nat (n - 1).
Proof.
  unfold variant_lines. rewrite length_map, range_length. f_equal. lia.
Qed.

End Census.

(** Solves [all_chars (other_than c) t = true] for the texts of the
    generator and a character [c] that the generator never emits there. *)
Ltac without_char :=
  unfold all_fields, parent_call, family_name;
  repeat (rewrite all_chars_app; apply andb_true_intro; split);
  first [ reflexivity
        | apply str_without; reflexivity
        | apply prev_fields_without; reflexivity
        | apply placeholders_without; reflexivity
        | apply rseq_without; reflexivity ].

Section Chunks.

Ltac fixed_chunk p :=
  apply (hits_clear p EmptyString); vm_compute; reflexivity.

Lemma header_hits :
  hits def_child 0 header /\ hits def_child1 0 header
  /\ hits def_arg_n 0 header /\ hits def_rseq 0 header.
Proof.
  split; [|split; [|split]].
  - fixed_chunk def_child.
  - fixed_chunk def_child1.
  - fixed_chunk def_arg_n.
  - fixed_chunk def_rseq.
Qed.

Lemma trailer_hits :
  hits def_child 0 trailer /\ hits def_child1 0 trailer
  /\ hits def_arg_n 0 trailer /\ hits def_rseq 0 trailer.
Proof.
  split; [|split; [|split]].
  - fixed_chunk def_child.
  - fixed_chunk def_child1.
  - fixed_chunk def_arg_n.
  - fixed_chunk def_rseq.
Qed.

Lemma arg_n_line_hits (n : Z) :
  hits def_child 0 (arg_n_line n) /\ hits def_child1 0 (arg_n_line n)
  /\ hits def_arg_n 1 (arg_n_line n) /\ hits def_rseq 0 (arg_n_line n).
Proof.
  split; [|split; [|split]].
  - apply hits_define_no; [reflexivity | without_char].
  - apply hits_define_no; [reflexivity | without_char].
  - apply hits_define_yes; [reflexivity | without_char].
  - apply hits_define_no; [reflexivity | without_char].
Qed.

Lemma rseq_line_hits (n : Z) :
  hits def_child 0 (rseq_line n) /\ hits def_child1 0 (rseq_line n)
  /\ hits def_arg_n 0 (rseq_line n) /\ hits def_rseq 1 (rseq_line n).
Proof.
  split; [|split; [|split]].
  - apply hits_define_no; [reflexivity | without_char].
  - apply hits_define_no; [reflexivity | without_char].
  - apply hits_define_no; [reflexivity | without_char].
  - apply hits_define_yes; [reflexivity | without_char].
Qed.

Lemma child1_line_hits :
  hits def_child 1 child1_line /\ hits def_child1 1 child1_line
  /\ hits def_arg_n 0 child1_line /\ hits def_rseq 0 child1_line.
Proof.
  split; [|split; [|split]].
  - apply hits_define_yes; [reflexivity | without_char].
  - apply hits_define_yes; [reflexivity | without_char].
  - apply hits_define_no; [reflexivity | without_char].
  - apply hits_define_no; [reflexivity | without_char].
Qed.

Lemma variant_line_eq (i : Z) :
  child_text i ++ nl ++ nl = def_child ++ str i ++ String "(" (variant_rest i).
Proof.
  unfold child_text, variant_rest, def_child. now rewrite !append_assoc.
Qed.

Lemma variant_tail_without (i : Z) :
  all_chars (other_than "#")
    ("define MANGROVE_CHILD" ++ str i ++ String "(" (variant_rest i)) = true.
Proof.
  rewrite !all_chars_app.
  change (all_chars (other_than "#") (String "(" (variant_rest i)))
    with (all_chars (other_than "#") (variant_rest i)).
  rewrite str_without by reflexivity.
  replace (all_chars (other_than "#") (variant_rest i)) with true;
    [reflexivity|].
  symmetry. unfold variant_rest. without_char.
Qed.

Lemma starts_child1_false (i : Z) (x b : string) :
  2 <= i ->
  starts_with def_child1 ((def_child ++ str i ++ String "(" x) ++ b) = false.
Proof.
  intros Hi. rewrite !append_assoc.
  change def_child1 with (def_child ++ String "1" (String "(" EmptyString)).
  rewrite starts_with_same.
  change (String "(" x ++ b) with (String "(" (x ++ b)).
  now apply str_not_one.
Qed.

(** A variant of depth 2 or more is one definition of a child macro, and
    not a definition of the depth-1 macro or of a counting macro. *)
Lemma variant_line_hits (i : Z) :
  2 <= i ->
  hits def_child 1 (child_text i ++ nl ++ nl)
  /\ hits def_child1 0 (child_text i ++ nl ++ nl)
  /\ hits def_arg_n 0 (child_text i ++ nl ++ nl)
  /\ hits def_rseq 0 (child_text i ++ nl ++ nl).
Proof.
  intros Hi. rewrite variant_line_eq.
  pose proof (variant_tail_without i) as Hw.
  split; [|split; [|split]].
  - apply hits_define_yes; [reflexivity | exact Hw].
  - apply (hits_miss def_child1 "#"); [|now apply hits_without].
    intros b. now apply (starts_child1_false i (variant_rest i) b).
  - apply hits_define_no; [reflexivity | exact Hw].
  - apply hits_define_no; [reflexivity | exact Hw].
Qed.

Lemma variant_lines_hits (n : Z) :
  Forall (hits def_child 1) (variant_lines n)
  /\ Forall (hits def_child1 0) (variant_lines n)
  /\ Forall (hits def_arg_n 0) (variant_lines n)
  /\ Forall (hits def_rseq 0) (variant_lines n).
Proof.
  unfold variant_lines.
  split; [|split; [|split]]; apply Forall_forall; intros x Hx;
    apply in_map_iff in Hx as (i & <- & Hi); apply range_In in Hi;
    now apply (variant_line_hits i).
Qed.

End Chunks.

(* ================================================================= *)
(** ** The depth-3 self-test *)

(** C1: the depth-3 variant is equal, character for character, to the
    hard-coded reference text, so the self-test passes. *)
Theorem C1_depth3_matches_reference :
  make_mangrove_child 3 = Ok REFERENCE_MACRO_3 /\ test = Ok tt.
Proof. split; vm_compute; reflexivity. Qed.

(* ================================================================= *)
(** ** The counting-macro pair *)

Lemma placeholders_nth (D k : Z) :
  0 <= k < D + 2 ->
  nth_error (arg_n_placeholders D) (Z.to_nat k) = Some ("_" ++ str k ++ ", ").
Proof.
  intros Hk. unfold arg_n_placeholders.
  rewrite nth_error_map.
  rewrite (nth_error_nth' _ 0) by (rewrite range_length; lia).
  rewrite range_nth by lia.
  replace (0 + Z.of_nat (Z.to_nat k)) with k by lia. reflexivity.
Qed.

Lemma rseq_nth (D k : Z) :
  0 <= k <= D + 2 ->
  nth_error (rseq_numbers D) (Z.to_nat k) = Some (D + 2 - k).
Proof.
  intros Hk. unfold rseq_numbers.
  rewrite (nth_error_nth' _ 0) by (rewrite range_down_length; lia).
  rewrite range_down_nth by lia.
  replace (Z.of_nat (Z.to_nat k)) with k by lia. reflexivity.
Qed.

(** C2: for a depth [D >= 1] the selector macro MANGROVE_PP_ARG_N has
    exactly [D + 2] placeholder parameters [_0, ..., _(D+1)], followed by
    the result parameter [N], and the reverse-sequence macro
    MANGROVE_PP_RSEQ_N enumerates exactly the [D + 3] integers from
    [D + 2] down to [0], separated by commas. *)
Theorem C2_counting_pair_sizes (D : Z) (HD : 1 <= D) :
  arg_n_line D
  = "#define MANGROVE_PP_ARG_N(" ++ join EmptyString (arg_n_placeholders D)
    ++ " N, ...) N" ++ nl ++ nl
  /\ Z.of_nat (List.length (arg_n_placeholders D)) = D + 2
  /\ (forall k, 0 <= k < D + 2 ->
        nth_error (arg_n_placeholders D) (Z.to_nat k) = Some ("_" ++ str k ++ ", "))
  /\ rseq_line D
     = "#define MANGROVE_PP_RSEQ_N() " ++ join ", " (map str (rseq_numbers D))
       ++ nl ++ nl
  /\ Z.of_nat (List.length (rseq_numbers D)) = D + 3
  /\ (forall k, 0 <= k <= D + 2 ->
        nth_error (rseq_numbers D) (Z.to_nat k) = Some (D + 2 - k))
  /\ document D
     = header ++ arg_n_line D ++ rseq_line D ++ children D ++ trailer.
Proof.
  split; [reflexivity|]. split.
  { unfold arg_n_placeholders. rewrite length_map, range_length. lia. }
  split; [apply placeholders_nth|]. split; [reflexivity|]. split.
  { unfold rseq_numbers. rewrite range_down_length. lia. }
  split; [apply rseq_nth|].
  rewrite document_eq. unfold document_sans_trailer.
  now rewrite !append_assoc.
Qed.

Lemma C2_counting_pair_sizes_witness :
  1 <= 3
  /\ Z.of_nat (List.length (arg_n_placeholders 3)) = 3 + 2
  /\ Z.of_nat (List.length (rseq_numbers 3)) = 3 + 3.
Proof.
  assert (H : 1 <= 3) by lia.
  split; [exact H|].
  destruct (C2_counting_pair_sizes 3 H) as (_ & Ha & _ & _ & Hr & _).
  split; [exact Ha | exact Hr].
Defined.

Example counting_pair_3 :
  arg_n_line 3 = "#define MANGROVE_PP_ARG_N(_0, _1, _2, _3, _4,  N, ...) N" ++ nl ++ nl
  /\ rseq_line 3 = "#define MANGROVE_PP_RSEQ_N() 5, 4, 3, 2, 1, 0" ++ nl ++ nl.
Proof. split; reflexivity. Qed.

(* ================================================================= *)
(** ** References to the previous variant *)

Lemma body_hits (n : Z) : hits (family_name (n - 1)) 2 (child_body n).
Proof.
  assert (Hcall : hits (family_name (n - 1)) 1 (parent_call n)).
  { apply (hits_first _ 0 "M"
             (("ANGROVE_CHILD" ++ str (n - 1)) ++ "(base, " ++ prev_fields n ++ ")")).
    - apply (starts_with_app (family_name (n - 1))).
    - apply hits_without. without_char. }
  unfold child_body.
  change 2%nat with (0 + (1 + (0 + (0 + (0 + (1 + 0))))))%nat.
  repeat apply hits_app; try exact Hcall.
  - apply (hits_clear "MANGROVE_CHILD" (str (n - 1))). vm_compute. reflexivity.
  - apply (hits_without "M"). reflexivity.
  - apply (hits_without "M"). without_char.
  - apply (hits_without "M"). reflexivity.
  - apply (hits_without "M"). reflexivity.
Qed.

(** C3, as stated, fails at depth 3: the body of variant 3 refers to
    MANGROVE_CHILD2 twice, not once. *)
Lemma C3_counterexample :
  2 <= 3 /\ occurrences (family_name (3 - 1)) (child_body 3) <> 1%nat.
Proof. split; [lia|]. vm_compute. discriminate. Qed.

(** C3, amended: for [2 <= N <= D] the entry of depth [N] in the document
    is variant [N], whose body contains exactly two occurrences of the
    family name followed by [N - 1]: once inside [decltype(...)] and once
    as the parent argument, each time applied to
    [base, field1, ..., field(N-1)]. *)
Theorem C3_two_parent_references (N D : Z) (HN : 2 <= N <= D) :
  In (child_text N ++ nl ++ nl) (variant_lines D)
  /\ make_mangrove_child N = Ok (child_text N)
  /\ child_text N = child_head N ++ child_body N
  /\ child_body N
     = "make_nvp_with_parent(MANGROVE_KEY_BY_VALUE(&std::decay_t<typename decltype("
       ++ parent_call N ++ ")::child_base_type>::field" ++ str N ++ "), "
       ++ parent_call N ++ ")"
  /\ parent_call N
     = "MANGROVE_CHILD" ++ str (N - 1) ++ "(base, "
       ++ join ", " (map (fun i => "field" ++ str i) (range 1 N)) ++ ")"
  /\ occurrences (family_name (N - 1)) (child_body N) = 2%nat.
Proof.
  split.
  { unfold variant_lines. apply in_map_iff. exists N. split; [reflexivity|].
    apply range_In. lia. }
  split; [apply make_mangrove_child_ok; lia|].
  split; [apply child_text_eq|]. split; [reflexivity|]. split.
  { unfold parent_call, family_name, prev_fields. now rewrite !append_assoc. }
  apply hits_total; [|apply body_hits].
  unfold family_name. discriminate.
Qed.

Lemma C3_two_parent_references_witness :
  2 <= 3 <= 5 /\ occurrences (family_name (3 - 1)) (child_body 3) = 2%nat.
Proof.
  assert (H : 2 <= 3 <= 5) by lia.
  split; [exact H|].
  exact (proj2 (proj2 (proj2 (proj2 (proj2 (C3_two_parent_references 3 5 H)))))).
Defined.

(* ================================================================= *)
(** ** Growth of the document with the depth *)

Lemma length_append (a b : string) :
  String.length (a ++ b) = (String.length a + String.length b)%nat.
Proof. induction a as [|c a IH]; simpl; [reflexivity|now rewrite IH]. Qed.

Lemma join_empty_snoc (xs : list string) (x : string) :
  join EmptyString (xs ++ [x])%list = join EmptyString xs ++ x.
Proof.
  unfold join. induction xs as [|y xs IH]; [reflexivity|].
  destruct xs as [|z xs]; [reflexivity|].
  change (String.concat EmptyString ((y :: z :: xs) ++ [x])%list)
    with (y ++ String.concat EmptyString ((z :: xs) ++ [x])%list).
  rewrite IH.
  change (String.concat EmptyString (y :: z :: xs))
    with (y ++ String.concat EmptyString (z :: xs)).
  now rewrite append_assoc.
Qed.

(** The selector macro of depth [D + 1] is longer than that of depth [D]. *)
Lemma arg_n_line_grows (D : Z) : 1 <= D -> arg_n_line (D + 1) <> arg_n_line D.
Proof.
  intros HD E. apply (f_equal String.length) in E. revert E.
  unfold arg_n_line, arg_n_placeholders.
  replace (D + 1 + 2) with ((D + 2) + 1) by lia.
  rewrite range_snoc, map_app by lia. cbn [map].
  rewrite join_empty_snoc, !length_append.
  pose proof (str_nonempty (D + 2)) as Hs.
  destruct (str (D + 2)); [congruence|]. cbn [String.length append]. lia.
Qed.

Lemma variant_lines_snoc (D : Z) :
  1 <= D ->
  variant_lines (D + 1) = (variant_lines D ++ [(child_text (D + 1) ++ nl ++ nl)%string])%list.
Proof.
  intros HD. unfold variant_lines.
  now rewrite (range_snoc 2 (D + 1)), map_app by lia.
Qed.

(** C4, as stated, fails at depth 1: the document of depth 1, less its
    trailing boilerplate, is not a substring of the document of depth 2,
    because the counting-macro pair in front of the variants is sized to
    the depth. *)
Lemma C4_counterexample :
  1 <= 1
  /\ document 1 = document_sans_trailer 1 ++ trailer
  /\ ~ substring_of (document_sans_trailer 1) (document (1 + 1)).
Proof.
  split; [lia|]. split; [apply document_eq|].
  intros H. apply substringb_iff in H. vm_compute in H. discriminate.
Qed.

(** C4, amended: for [D >= 1] the documents of depth [D] and [D + 1]
    share the header and the trailing boilerplate, and the document of
    depth [D + 1] contains, as one contiguous substring, the whole
    child-macro section of the document of depth [D] (the MANGROVE_CHILD1
    line and the variants 2..D) followed by exactly one additional variant,
    that of depth [D + 1]; the counting-macro pair before it is generated
    anew for [D + 1] and differs. *)
Theorem C4_children_grow (D : Z) (HD : 1 <= D) :
  document D
  = header ++ (arg_n_line D ++ rseq_line D) ++ children D ++ trailer
  /\ document (D + 1)
     = header ++ (arg_n_line (D + 1) ++ rseq_line (D + 1))
       ++ children D ++ (child_text (D + 1) ++ nl ++ nl) ++ trailer
  /\ make_mangrove_child (D + 1) = Ok (child_text (D + 1))
  /\ substring_of (children D ++ (child_text (D + 1) ++ nl ++ nl))
       (document (D + 1))
  /\ arg_n_line (D + 1) <> arg_n_line D.
Proof.
  assert (E : document (D + 1)
     = header ++ (arg_n_line (D + 1) ++ rseq_line (D + 1))
       ++ children D ++ (child_text (D + 1) ++ nl ++ nl) ++ trailer).
  { rewrite document_eq. unfold document_sans_trailer, children.
    rewrite variant_lines_snoc, cat_app by exact HD.
    cbn [cat]. now rewrite append_nil_r, !append_assoc. }
  split.
  { rewrite document_eq. unfold document_sans_trailer. now rewrite !append_assoc. }
  split; [exact E|]. split; [apply make_mangrove_child_ok; lia|]. split.
  - exists (header ++ arg_n_line (D + 1) ++ rseq_line (D + 1)), trailer.
    rewrite E. now rewrite !append_assoc.
  - now apply arg_n_line_grows.
Qed.

Lemma C4_children_grow_witness :
  1 <= 1
  /\ substring_of (children 1 ++ (child_text (1 + 1) ++ nl ++ nl))
       (document (1 + 1)).
Proof.
  assert (H : 1 <= 1) by lia.
  split; [exact H|].
  exact (proj1 (proj2 (proj2 (proj2 (C4_children_grow 1 H))))).
Defined.

(* ================================================================= *)
(** ** Running the script *)

Lemma test_passes : test_against REFERENCE_MACRO_3 = Ok tt.
Proof. vm_compute. reflexivity. Qed.

Lemma main_with_run (reference : string) (argv : list string) (w : world) :
  main_with reference argv w
  = match test_against reference with
    | Raise e => (Raise e, w)
    | Ok _ =>
        match tl argv with
        | [path] =>
            if writable w path
            then (Ok tt, set_file path (document MAX_BSON_DEPTH) (set_file path EmptyString w))
            else (Raise IOError, w)
        | [path; depth] =>
            if writable w path
            then match int depth with
                 | Ok max_n =>
                     (Ok tt, set_file path (document max_n) (set_file path EmptyString w))
                 | Raise e => (Raise e, set_file path EmptyString w)
                 end
            else (Raise IOError, w)
        | _ =>
            (Raise (SystemExit None),
             mkWorld (files w) (writable w) (stdout w ++ usage_text))
        end
    end.
Proof.
  assert (Hfile : forall path n,
    on_file path (print_macros n) (set_file path EmptyString w)
    = (Ok tt, set_file path (document n) (set_file path EmptyString w))).
  { intros path n. unfold on_file.
    cbn [files set_file]. rewrite String.eqb_refl.
    now rewrite print_macros_run, document_eq. }
  assert (Husage : usage w
    = (Raise (SystemExit None),
       mkWorld (files w) (writable w) (stdout w ++ usage_text))).
  { unfold usage, bind, print, raise, usage_text. cbn [files writable stdout].
    now rewrite !append_assoc. }
  unfold main_with. unfold bind at 1. unfold lift at 1.
  destruct (test_against reference) as [[]|e]; [|reflexivity].
  destruct (tl argv) as [|path [|depth [|extra rest]]].
  - unfold bind at 1. cbn [List.length Nat.eqb orb negb]. now rewrite Husage.
  - unfold bind at 1. cbn [List.length Nat.eqb orb negb]. unfold ret at 1.
    unfold bind at 1. unfold open_w.
    destruct (writable w path); [|reflexivity].
    cbn [List.length Nat.eqb]. apply Hfile.
  - unfold bind at 1. cbn [List.length Nat.eqb orb negb]. unfold ret at 1.
    unfold bind at 1. unfold open_w.
    destruct (writable w path); [|reflexivity].
    cbn [List.length Nat.eqb]. unfold bind at 1. unfold lift at 1.
    cbn [nth]. destruct (int depth) as [n|e]; [apply Hfile|reflexivity].
  - unfold bind at 1. cbn [List.length Nat.eqb orb negb]. now rewrite Husage.
Qed.

Lemma main_run (argv : list string) (w : world) :
  main argv w
  = match tl argv with
    | [path] =>
        if writable w path
        then (Ok tt, set_file path (document MAX_BSON_DEPTH) (set_file path EmptyString w))
        else (Raise IOError, w)
    | [path; depth] =>
        if writable w path
        then match int depth with
             | Ok max_n =>
                 (Ok tt, set_file path (document max_n) (set_file path EmptyString w))
             | Raise e => (Raise e, set_file path EmptyString w)
             end
        else (Raise IOError, w)
    | _ =>
        (Raise (SystemExit None),
         mkWorld (files w) (writable w) (stdout w ++ usage_text))
    end.
Proof. unfold main. now rewrite main_with_run, test_passes. Qed.

Lemma wrote_set_file (path text : string) (w : world) :
  wrote path text w (set_file path text (set_file path EmptyString w)).
Proof.
  split; [|split; reflexivity].
  intros p. cbn [files set_file]. now destruct (String.eqb p path).
Qed.

(** The number of definitions of each kind in a document. *)
Lemma document_counts (max_n : Z) :
  occurrences def_child (document max_n) = S (Z.to_nat (max_n - 1))
  /\ occurrences def_child1 (document max_n) = 1%nat
  /\ occurrences def_arg_n (document max_n) = 1%nat
  /\ occurrences def_rseq (document max_n) = 1%nat.
Proof.
  destruct header_hits as (Hh & Hh1 & Hha & Hhr).
  destruct trailer_hits as (Ht & Ht1 & Hta & Htr).
  destruct (arg_n_line_hits max_n) as (Ha & Ha1 & Haa & Har).
  destruct (rseq_line_hits max_n) as (Hr & Hr1 & Hra & Hrr).
  destruct child1_line_hits as (H1 & H11 & H1a & H1r).
  destruct (variant_lines_hits max_n) as (Hv & Hv1 & Hva & Hvr).
  assert (Hne : forall s, String "#" s <> EmptyString) by discriminate.
  split; [|split; [|split]].
  - rewrite (document_census def_child max_n 0 0 0 1 1 0 (Hne _) Hh Ha Hr H1 Hv Ht).
    rewrite variant_lines_length. lia.
  - now rewrite (document_census def_child1 max_n 0 0 0 1 0 0 (Hne _) Hh1 Ha1 Hr1 H11 Hv1 Ht1).
  - now rewrite (document_census def_arg_n max_n 0 1 0 0 0 0 (Hne _) Hha Haa Hra H1a Hva Hta).
  - now rewrite (document_census def_rseq max_n 0 0 1 0 0 0 (Hne _) Hhr Har Hrr H1r Hvr Htr).
Qed.

(** C5: generation is deterministic and idempotent.  Running the script a
    second time with the same arguments ends the same way and leaves every
    file exactly as the first run left it; what [print_macros] writes for
    a depth does not depend on what the file held before; and
    [make_mangrove_child] gives the same text for the same [N] whatever
    the state it is called in, which it leaves alone. *)
Theorem C5_generation_is_repeatable
    (argv : list string) (w : world) (D N : Z) (written written' : string) :
  same_files (snd (main argv w)) (snd (main argv (snd (main argv w))))
  /\ fst (main argv (snd (main argv w))) = fst (main argv w)
  /\ print_macros D written = (Ok tt, written ++ document D)
  /\ print_macros D written' = (Ok tt, written' ++ document D)
  /\ @lift string string (make_mangrove_child N) written
     = (make_mangrove_child N, written)
  /\ @lift string string (make_mangrove_child N) written'
     = (make_mangrove_child N, written').
Proof.
  split; [|split].
  - intros p. rewrite !main_run.
    destruct (tl argv) as [|path [|depth [|extra rest]]]; try reflexivity.
    + destruct (writable w path) eqn:Hw; cbn [snd writable set_file]; rewrite Hw;
        [|reflexivity].
      cbn [snd files set_file]. now destruct (String.eqb p path).
    + destruct (writable w path) eqn:Hw; cbn [snd writable set_file].
      * destruct (int depth) as [n|e]; cbn [snd writable set_file]; rewrite Hw;
          cbn [snd files set_file]; now destruct (String.eqb p path).
      * rewrite Hw. reflexivity.
  - rewrite !main_run.
    destruct (tl argv) as [|path [|depth [|extra rest]]]; try reflexivity.
    + destruct (writable w path) eqn:Hw; cbn [snd fst writable set_file];
        now rewrite Hw.
    + destruct (writable w path) eqn:Hw; cbn [snd fst writable set_file].
      * destruct (int depth) as [n|e]; cbn [snd fst writable set_file];
          now rewrite Hw.
      * now rewrite Hw.
  - rewrite !print_macros_run, !document_eq. repeat split.
Qed.

(* ================================================================= *)
(** ** Errors *)

Example unparsable_depth_leaves_empty_file :
  main ["generate_macros.py"; "out.hpp"; "deep"] empty_world
  = (Raise (ValueError "invalid literal for int() with base 10: deep"),
     set_file "out.hpp" EmptyString empty_world).
Proof. rewrite main_run. reflexivity. Qed.

(* ================================================================= *)
(** ** The shape of the document *)

(** The entries of the child-macro section, depth 1 first. *)
Lemma child_entry (D k : Z) :
  1 <= k <= D ->
  exists rest,
    nth_error (child1_line :: variant_lines D) (Z.to_nat (k - 1))
    = Some (def_child ++ str k ++ String "(" rest).
Proof.
  intros Hk. destruct (Z.eq_dec k 1) as [->|Hk1].
  - eexists. reflexivity.
  - exists (variant_rest k).
    replace (Z.to_nat (k - 1)) with (S (Z.to_nat (k - 2))) by lia.
    cbn [nth_error]. unfold variant_lines.
    rewrite nth_error_map.
    rewrite (nth_error_nth' _ 0) by (rewrite range_length; lia).
    rewrite range_nth by lia.
    replace (2 + Z.of_nat (Z.to_nat (k - 2))) with k by lia.
    cbn [option_map]. now rewrite variant_line_eq.
Qed.

(** C9: run with the destination as its only argument, the script writes
    the document of depth 100.  That document is the header, one
    counting-macro pair, the child-macro section and the trailing
    boilerplate; the child-macro section has exactly 100 entries, the
    [k]-th of which defines MANGROVE_CHILD[k], for [k] from 1 to 100 in
    increasing order; and the document holds exactly 100 definitions of a
    child macro and exactly one of each counting macro. *)
Theorem C9_default_depth_document
    (script path : string) (w : world) (Hw : writable w path = true) :
  fst (main [script; path] w) = Ok tt
  /\ wrote path (document 100) w (snd (main [script; path] w))
  /\ document 100
     = header ++ (arg_n_line 100 ++ rseq_line 100)
       ++ cat (child1_line :: variant_lines 100) ++ trailer
  /\ List.length (child1_line :: variant_lines 100) = 100%nat
  /\ (forall k, 1 <= k <= 100 ->
        exists rest,
          nth_error (child1_line :: variant_lines 100) (Z.to_nat (k - 1))
          = Some ("#define MANGROVE_CHILD" ++ str k ++ String "(" rest))
  /\ occurrences "#define MANGROVE_CHILD" (document 100) = 100%nat
  /\ occurrences "#define MANGROVE_PP_ARG_N(" (document 100) = 1%nat
  /\ occurrences "#define MANGROVE_PP_RSEQ_N(" (document 100) = 1%nat.
Proof.
  destruct (document_counts 100) as (Hc & _ & Ha & Hr).
  rewrite main_run. cbn [tl]. rewrite Hw.
  split; [reflexivity|]. split; [apply (wrote_set_file path _ w)|]. split.
  { rewrite document_eq. unfold document_sans_trailer, children.
    cbn [cat]. now rewrite !append_assoc. }
  split.
  { cbn [List.length]. now rewrite variant_lines_length. }
  split; [apply child_entry|].
  split; [exact Hc|]. split; [exact Ha|exact Hr].
Qed.

Lemma C9_default_depth_document_witness :
  writable empty_world "out.hpp" = true
  /\ fst (main ["generate_macros.py"; "out.hpp"] empty_world) = Ok tt
  /\ occurrences "#define MANGROVE_CHILD" (document 100) = 100%nat.
Proof.
  assert (H : writable empty_world "out.hpp" = true) by reflexivity.
  destruct (C9_default_depth_document "generate_macros.py" "out.hpp" empty_world H)
    as (Hm & _ & _ & _ & _ & Hc & _).
  split; [exact H|]. split; [exact Hm|exact Hc].
Defined.

Example shallow_documents :
  document 1 = header ++ arg_n_line 1 ++ rseq_line 1 ++ child1_line ++ trailer
  /\ document 0 = header ++ arg_n_line 0 ++ rseq_line 0 ++ child1_line ++ trailer
  /\ document (-7) = header ++ arg_n_line (-7) ++ rseq_line (-7) ++ child1_line ++ trailer
  /\ arg_n_line (-7) = "#define MANGROVE_PP_ARG_N( N, ...) N" ++ nl ++ nl
  /\ rseq_line (-7) = "#define MANGROVE_PP_RSEQ_N() " ++ nl ++ nl.
Proof. repeat split; vm_compute; reflexivity. Qed.

(* ================================================================= *)
(** ** What the counting macros compute *)

(** X1: the counting pair counts.  MANGROVE_PP_NARG passes its arguments
    followed by the reverse sequence to MANGROVE_PP_ARG_N, whose result
    parameter [N] comes right after the placeholders; so for up to
    [max_n + 2] arguments the token bound to [N] is the number of
    arguments. *)
Theorem X1_selector_picks_argument_count (max_n : Z) (args : list string)
    (Hargs : Z.of_nat (List.length args) <= max_n + 2) :
  nth_error (args ++ map str (rseq_numbers max_n))%list
            (List.length (arg_n_placeholders max_n))
  = Some (str (Z.of_nat (List.length args))).
Proof.
  assert (Hlen : List.length (arg_n_placeholders max_n) = Z.to_nat (max_n + 2)).
  { unfold arg_n_placeholders. rewrite length_map, range_length. f_equal. lia. }
  rewrite Hlen, nth_error_app2 by lia.
  rewrite nth_error_map.
  replace (Z.to_nat (max_n + 2) - List.length args)%nat
    with (Z.to_nat (max_n + 2 - Z.of_nat (List.length args))) by lia.
  rewrite rseq_nth by lia. cbn [option_map]. do 2 f_equal. lia.
Qed.

Lemma X1_selector_picks_argument_count_witness :
  nth_error (["a"; "b"; "c"] ++ map str (rseq_numbers 2))%list
            (List.length (arg_n_placeholders 2))
  = Some "3".
Proof.
  apply (X1_selector_picks_argument_count 2 ["a"; "b"; "c"]).
  vm_compute. discriminate.
Defined.

(* ================================================================= *)
(** ** Parameters and uses of the variants *)

Lemma join_snoc (sep : string) (xs : list string) (x : string) :
  xs <> [] -> join sep (xs ++ [x])%list = join sep xs ++ sep ++ x.
Proof.
  unfold join. induction xs as [|y xs IH]; [congruence|]. intros _.
  destruct xs as [|z xs]; [reflexivity|].
  change (String.concat sep ((y :: z :: xs) ++ [x])%list)
    with (y ++ sep ++ String.concat sep ((z :: xs) ++ [x])%list).
  rewrite IH by discriminate.
  change (String.concat sep (y :: z :: xs))
    with (y ++ sep ++ String.concat sep (z :: xs)).
  now rewrite !append_assoc.
Qed.

Lemma append_inv_head (a b c : string) : a ++ b = a ++ c -> b = c.
Proof.
  induction a as [|x a IH]; simpl; intros H; [exact H|].
  injection H as H. now apply IH.
Qed.

Lemma NoDup_map_injective {A B : Type} (f : A -> B) (l : list A) :
  (forall x y, f x = f y -> x = y) -> NoDup l -> NoDup (map f l).
Proof.
  intros Hf. induction 1 as [|x l Hx Hl IH]; simpl; constructor; [|exact IH].
  intros H. apply in_map_iff in H as (y & E & Hy).
  apply Hf in E. now subst y.
Qed.

Lemma range_NoDup (a b : Z) : NoDup (range a b).
Proof.
  unfold range. apply NoDup_map_injective; [|apply seq_NoDup].
  intros x y H. lia.
Qed.

Lemma field_names_length (n : Z) :
  List.length (field_names n) = Z.to_nat n.
Proof.
  unfold field_names. rewrite length_map, range_length. f_equal. lia.
Qed.

Lemma all_fields_join (n : Z) :
  2 <= n -> all_fields n = join ", " (field_names n).
Proof.
  intros Hn. unfold all_fields, prev_fields, field_names.
  rewrite (range_snoc 1 n), map_app by lia. cbn [map].
  rewrite join_snoc; [reflexivity|].
  intros E. apply (f_equal (@List.length string)) in E.
  rewrite length_map, range_length in E. cbn in E. lia.
Qed.

(** X2: from depth 2 on, the parameter list of a variant is [base] and the
    [n] names [field1], ..., [fieldn], separated by commas, and no two
    parameters have the same name. *)
Theorem X2_parameters_are_distinct (n : Z) (Hn : 2 <= n) :
  child_head n
  = "#define MANGROVE_CHILD" ++ str n ++ "("
    ++ join ", " ("base" :: field_names n) ++ ") "
  /\ Z.of_nat (List.length (field_names n)) = n
  /\ (forall k, 1 <= k <= n ->
        nth_error (field_names n) (Z.to_nat (k - 1)) = Some ("field" ++ str k))
  /\ NoDup ("base" :: field_names n).
Proof.
  split; [|split; [|split]].
  - unfold child_head, family_name. rewrite all_fields_join by exact Hn.
    assert (E : join ", " ("base" :: field_names n)
                = "base, " ++ join ", " (field_names n)).
    { pose proof (field_names_length n) as L.
      destruct (field_names n); [cbn in L; lia|reflexivity]. }
    rewrite E. now rewrite !append_assoc.
  - rewrite field_names_length. lia.
  - intros k Hk. unfold field_names. rewrite nth_error_map.
    rewrite (nth_error_nth' _ 0) by (rewrite range_length; lia).
    rewrite range_nth by lia.
    replace (1 + Z.of_nat (Z.to_nat (k - 1))) with k by lia. reflexivity.
  - constructor.
    + unfold field_names. intros H. apply in_map_iff in H as (i & H & _).
      discriminate.
    + unfold field_names. apply NoDup_map_injective; [|apply range_NoDup].
      intros x y H. apply append_inv_head in H. now apply str_inj.
Qed.

Lemma X2_parameters_are_distinct_witness :
  2 <= 3 /\ NoDup ("base" :: field_names 3).
Proof.
  assert (H : 2 <= 3) by lia. split; [exact H|].
  exact (proj2 (proj2 (proj2 (X2_parameters_are_distinct 3 H)))).
Defined.

Lemma child_entries_nth (D k : Z) :
  2 <= k <= D ->
  nth_error (child_entries D) (Z.to_nat (k - 1)) = Some (child_text k ++ nl ++ nl).
Proof.
  intros Hk. unfold child_entries.
  replace (Z.to_nat (k - 1)) with (S (Z.to_nat (k - 2))) by lia.
  cbn [nth_error]. unfold variant_lines.
  rewrite nth_error_map.
  rewrite (nth_error_nth' _ 0) by (rewrite range_length; lia).
  rewrite range_nth by lia.
  now replace (2 + Z.of_nat (Z.to_nat (k - 2))) with k by lia.
Qed.

Lemma child_head_is_call (n : Z) :
  2 <= n -> child_head n = "#define " ++ parent_call (n + 1) ++ " ".
Proof.
  intros Hn. unfold child_head, parent_call.
  replace (n + 1 - 1) with n by lia.
  rewrite all_fields_join by exact Hn.
  unfold prev_fields, field_names. now rewrite !append_assoc.
Qed.

(** X3: definitions and uses agree.  In a document of depth [D], the entry
    of depth [n] starts with [#define] followed, character for character,
    by the very call [MANGROVE_CHILDn(base, field1, ..., fieldn)] that the
    next entry, of depth [n + 1], makes twice in its body; this holds
    from the fixed depth-1 line on. *)
Theorem X3_next_variant_calls_what_is_defined (D n : Z)
    (Hn : 1 <= n) (HD : n + 1 <= D) :
  (exists body,
     nth_error (child_entries D) (Z.to_nat (n - 1))
     = Some ("#define " ++ parent_call (n + 1) ++ String " " body))
  /\ nth_error (child_entries D) (Z.to_nat n)
     = Some (child_head (n + 1)
             ++ ("make_nvp_with_parent(MANGROVE_KEY_BY_VALUE(&std::decay_t<typename decltype("
                 ++ parent_call (n + 1) ++ ")::child_base_type>::field" ++ str (n + 1)
                 ++ "), " ++ parent_call (n + 1) ++ ")")
             ++ nl ++ nl).
Proof.
  split.
  - destruct (Z.eq_dec n 1) as [->|Hn1].
    + eexists. reflexivity.
    + exists (child_body n ++ nl ++ nl).
      rewrite child_entries_nth by lia.
      rewrite child_text_eq, child_head_is_call by lia.
      now rewrite !append_assoc.
  - replace (Z.to_nat n) with (Z.to_nat (n + 1 - 1)) by lia.
    rewrite child_entries_nth by lia.
    rewrite child_text_eq. unfold child_body. now rewrite !append_assoc.
Qed.

Lemma X3_next_variant_calls_what_is_defined_witness :
  nth_error (child_entries 2) (Z.to_nat 1)
  = Some (child_head (1 + 1)
          ++ ("make_nvp_with_parent(MANGROVE_KEY_BY_VALUE(&std::decay_t<typename decltype("
              ++ parent_call (1 + 1) ++ ")::child_base_type>::field" ++ str (1 + 1)
              ++ "), " ++ parent_call (1 + 1) ++ ")")
          ++ nl ++ nl).
Proof.
  apply (X3_next_variant_calls_what_is_defined 2 1); lia.
Defined.

(** X4: whatever [make_mangrove_child] returns is one line: the text of a
    variant has no line feed in it, so each definition written by
    [print_macros] is a single preprocessor line. *)
Theorem X4_variant_is_one_line (n : Z) (s : string)
    (Hs : make_mangrove_child n = Ok s) :
  all_chars (other_than "010") s = true
  /\ starts_with "#define MANGROVE_CHILD" s = true.
Proof.
  unfold make_mangrove_child in Hs.
  destruct (n <? 2); [discriminate|]. injection Hs as <-.
  split; [|reflexivity].
  unfold child_text. without_char.
Qed.

Lemma X4_variant_is_one_line_witness :
  all_chars (other_than "010") REFERENCE_MACRO_3 = true
  /\ starts_with "#define MANGROVE_CHILD" REFERENCE_MACRO_3 = true.
Proof.
  apply (X4_variant_is_one_line 3 REFERENCE_MACRO_3).
  vm_compute. reflexivity.
Defined.

(* ================================================================= *)
(** ** No macro is defined twice *)

Lemma digits_prefix (a b : string) (c : ascii) (q r : string) :
  all_chars is_digit a = true -> all_chars is_digit b = true ->
  is_digit c = false ->
  starts_with (a ++ String c q) (b ++ String c r) = true -> a = b.
Proof.
  intros Ha Hb Hc. revert b Hb.
  induction a as [|x a IH]; intros [|y b] Hb H; cbn in *.
  - reflexivity.
  - apply andb_true_iff in H as [H _]. apply Ascii.eqb_eq in H. subst y.
    apply andb_true_iff in Hb as [Hb _]. congruence.
  - apply andb_true_iff in H as [H _]. apply Ascii.eqb_eq in H. subst x.
    apply andb_true_iff in Ha as [Ha _]. congruence.
  - apply andb_true_iff in H as [H1 H2]. apply Ascii.eqb_eq in H1. subst y.
    apply andb_true_iff in Ha as [_ Ha]. apply andb_true_iff in Hb as [_ Hb].
    f_equal. now apply IH.
Qed.

(** The entry of depth [i] starts the way the definition of depth [k]
    does exactly when [i] is [k]. *)
Lemma starts_def_child_k (k i : Z) (x b : string) :
  0 <= k -> 0 <= i ->
  starts_with (def_child_k k) ((def_child ++ str i ++ String "(" x) ++ b)
  = (k =? i).
Proof.
  intros Hk Hi. unfold def_child_k. rewrite !append_assoc.
  rewrite starts_with_same.
  change (String "(" x ++ b) with (String "(" (x ++ b)).
  destruct (Z.eqb_spec k i) as [->|Hne].
  - rewrite starts_with_same. reflexivity.
  - destruct (starts_with (str k ++ "(") (str i ++ String "(" (x ++ b))) eqn:E;
      [|reflexivity].
    apply digits_prefix in E;
      [|now apply str_digits|now apply str_digits|reflexivity].
    now apply str_inj in E.
Qed.

Lemma entry_hits (k i : Z) (x : string) :
  0 <= k -> 0 <= i ->
  all_chars (other_than "#") ("define MANGROVE_CHILD" ++ str i ++ String "(" x) = true ->
  hits (def_child_k k) (if k =? i then 1 else 0) (def_child ++ str i ++ String "(" x).
Proof.
  intros Hk Hi Hw.
  change (def_child ++ str i ++ String "(" x)
    with (String "#" ("define MANGROVE_CHILD" ++ str i ++ String "(" x)).
  pose proof (fun b => starts_def_child_k k i x b Hk Hi) as Hs.
  change (def_child ++ str i ++ String "(" x)
    with (String "#" ("define MANGROVE_CHILD" ++ str i ++ String "(" x)) in Hs.
  assert (H0 : hits (def_child_k k) 0
                 ("define MANGROVE_CHILD" ++ str i ++ String "(" x)).
  { change (def_child_k k)
      with (String "#" ("define MANGROVE_CHILD" ++ str k ++ "(")).
    now apply hits_without. }
  destruct (k =? i).
  - apply hits_first; [|exact H0].
    specialize (Hs EmptyString). now rewrite append_nil_r in Hs.
  - now apply hits_miss.
Qed.

Lemma entries_hits (k : Z) (l : list Z) :
  0 <= k -> (forall i, In i l -> 2 <= i) ->
  hits (def_child_k k) (List.count_occ Z.eq_dec l k)
       (cat (map (fun i => child_text i ++ nl ++ nl) l)).
Proof.
  intros Hk. induction l as [|i l IH]; intros Hl; [apply hits_nil|].
  cbn [map cat List.count_occ].
  assert (Hi : 2 <= i) by (apply Hl; now left).
  assert (IH' := IH (fun j Hj => Hl j (or_intror Hj))).
  pose proof (entry_hits k i (variant_rest i) Hk ltac:(lia)
                (variant_tail_without i)) as He.
  rewrite <- variant_line_eq in He.
  destruct (Z.eq_dec i k) as [->|Hne].
  - rewrite Z.eqb_refl in He. now apply (hits_app _ 1).
  - destruct (Z.eqb_spec k i) as [->|_]; [congruence|].
    now apply (hits_app _ 0).
Qed.

Lemma range_count (a b k : Z) :
  List.count_occ Z.eq_dec (range a b) k
  = if (a <=? k) && (k <? b) then 1%nat else 0%nat.
Proof.
  destruct ((a <=? k) && (k <? b)) eqn:E.
  - apply NoDup_count_occ'; [apply range_NoDup|].
    apply range_In. lia.
  - apply count_occ_not_In. rewrite range_In. lia.
Qed.

(** X5: no child macro is defined twice.  For every depth [k >= 1], the
    text [#define MANGROVE_CHILDk(] occurs in the document of depth
    [max_n] exactly once when [k = 1] or [k <= max_n], and not at all
    otherwise; so the document defines MANGROVE_CHILD1 ...
    MANGROVE_CHILD[max_n], each once, and nothing beyond. *)
Theorem X5_each_variant_defined_once (max_n k : Z) (Hk : 1 <= k) :
  occurrences ("#define MANGROVE_CHILD" ++ str k ++ "(") (document max_n)
  = if (k =? 1) || (k <=? max_n) then 1%nat else 0%nat.
Proof.
  change ("#define MANGROVE_CHILD" ++ str k ++ "(") with (def_child_k k).
  assert (Hfixed : forall a, clear_of def_child a = true -> hits (def_child_k k) 0 a).
  { intros a Ha. now apply (hits_clear def_child (str k ++ "(")). }
  assert (Hline : forall lit rest,
             clash def_child (String "#" lit) = true ->
             all_chars (other_than "#") (lit ++ rest) = true ->
             hits (def_child_k k) 0 (String "#" lit ++ rest)).
  { intros lit rest Hc Hw. apply (hits_miss _ "#" (lit ++ rest)).
    - intros b.
      change (String "#" (lit ++ rest) ++ b) with ((String "#" lit ++ rest) ++ b).
      rewrite append_assoc. now apply clash_starts_with.
    - change (def_child_k k)
        with (String "#" ("define MANGROVE_CHILD" ++ str k ++ "(")).
      now apply hits_without. }
  assert (H : hits (def_child_k k)
                (0 + (0 + (0 + ((if k =? 1 then 1 else 0)
                                + List.count_occ Z.eq_dec (range 2 (max_n + 1)) k))) + 0)
                (document_sans_trailer max_n ++ trailer)).
  { unfold document_sans_trailer, children. repeat apply hits_app.
    - apply Hfixed. vm_compute. reflexivity.
    - apply Hline; [reflexivity|without_char].
    - apply Hline; [reflexivity|without_char].
    - apply (entry_hits k 1 ("base, field1) MANGROVE_KEY_BY_VALUE(&base::field1)" ++ nl ++ nl));
        [lia|lia|reflexivity].
    - apply entries_hits; [lia|]. intros i Hi. apply range_In in Hi. lia.
    - apply Hfixed. vm_compute. reflexivity. }
  assert (Hne : def_child_k k <> EmptyString) by (cbn; discriminate).
  rewrite document_eq, (hits_total _ _ _ Hne H), range_count.
  destruct (Z.eqb_spec k 1) as [->|Hk1]; cbn [orb].
  - reflexivity.
  - destruct (Z.leb_spec k max_n);
      destruct (Z.leb_spec 2 k); destruct (Z.ltb_spec k (max_n + 1));
      try lia; reflexivity.
Qed.

Lemma X5_each_variant_defined_once_witness :
  occurrences ("#define MANGROVE_CHILD" ++ str 10 ++ "(") (document 100) = 1%nat
  /\ occurrences ("#define MANGROVE_CHILD" ++ str 101 ++ "(") (document 100) = 0%nat.
Proof.
  split.
  - apply (X5_each_variant_defined_once 100 10). lia.
  - apply (X5_each_variant_defined_once 100 101). lia.
Defined.

(* ================================================================= *)
(** ** Parentheses *)

Lemma scan_app (j k m : nat) (a b : string) :
  paren_scan j a = Some k -> paren_scan k b = Some m ->
  paren_scan j (a ++ b) = Some m.
Proof.
  revert j. induction a as [|c a IH]; intros j Ha Hb.
  - cbn in Ha. injection Ha as ->. exact Hb.
  - cbn [append paren_scan] in *.
    destruct (Ascii.eqb c "("); [now apply IH|].
    destruct (Ascii.eqb c ")"); [|now apply IH].
    destruct j as [|j]; [discriminate|now apply IH].
Qed.

Lemma scan_plain (j : nat) (a : string) :
  all_chars (other_than "(") a = true -> all_chars (other_than ")") a = true ->
  paren_scan j a = Some j.
Proof.
  induction a as [|c a IH]; [reflexivity|]. cbn [all_chars paren_scan].
  intros H1 H2.
  apply andb_true_iff in H1 as [H1 H1']. apply andb_true_iff in H2 as [H2 H2'].
  unfold other_than in H1, H2.
  apply negb_true_iff in H1. apply negb_true_iff in H2.
  rewrite H1, H2. now apply IH.
Qed.

Lemma balanced_app (a b : string) : balanced a -> balanced b -> balanced (a ++ b).
Proof. unfold balanced. apply scan_app. Qed.

Lemma balanced_cat (parts : list string) :
  Forall balanced parts -> balanced (cat parts).
Proof.
  induction 1 as [|x xs Hx Hxs IH]; [reflexivity|].
  cbn [cat]. now apply balanced_app.
Qed.

(** Follows the parentheses through a concatenation, piece by piece: a
    piece is either free of parentheses or a literal that is scanned. *)
Ltac scan_pieces :=
  repeat (eapply scan_app;
          [ first [ apply scan_plain; without_char | reflexivity ] | ]);
  first [ apply scan_plain; without_char | reflexivity ].

Lemma child_text_balanced (n : Z) : balanced (child_text n).
Proof. unfold balanced, child_text. scan_pieces. Qed.

Lemma arg_n_line_balanced (n : Z) : balanced (arg_n_line n).
Proof. unfold balanced, arg_n_line. scan_pieces. Qed.

Lemma rseq_line_balanced (n : Z) : balanced (rseq_line n).
Proof. unfold balanced, rseq_line. scan_pieces. Qed.

(** X6: the parentheses of the generated text match.  In the document of
    any depth, and in the text of any single variant, every closing
    parenthesis closes an earlier opening one and none is left open. *)
Theorem X6_parentheses_match (max_n : Z) :
  balanced (document max_n)
  /\ Forall balanced (child_entries max_n)
  /\ (forall n, balanced (child_text n)).
Proof.
  assert (Hv : Forall balanced (variant_lines max_n)).
  { unfold variant_lines. apply Forall_forall. intros x Hx.
    apply in_map_iff in Hx as (i & <- & _).
    apply (balanced_app (child_text i) (nl ++ nl));
      [apply child_text_balanced|reflexivity]. }
  split; [|split].
  - rewrite document_eq. unfold document_sans_trailer, children.
    apply balanced_app; [|reflexivity].
    apply balanced_app; [reflexivity|].
    apply balanced_app; [apply arg_n_line_balanced|].
    apply balanced_app; [apply rseq_line_balanced|].
    apply balanced_app; [reflexivity|now apply balanced_cat].
  - constructor; [reflexivity|exact Hv].
  - apply child_text_balanced.
Qed.

Example unbalanced_texts :
  paren_scan 0 ")(" = None /\ paren_scan 0 "f(x" = Some 1%nat
  /\ paren_scan 0 "f(g(x), y)" = Some 0%nat.
Proof. repeat split. Qed.

(* ================================================================= *)
(** ** The depth argument *)

Lemma read_digits_acc (d : Decimal.uint) (acc : positive) :
  read_digits (Z.pos acc) (NilEmpty.string_of_uint d)
  = (Z.pos (Pos.of_uint_acc d acc), EmptyString).
Proof.
  revert acc. induction d; intros acc; cbn [NilEmpty.string_of_uint Pos.of_uint_acc];
    [reflexivity|..];
    rewrite <- IHd; cbn [read_digits];
    match goal with
    | |- context [is_digit ?c] =>
        change (is_digit c) with true;
        let v := eval vm_compute in (Z.of_nat (nat_of_ascii c) - 48) in
        change (Z.of_nat (nat_of_ascii c) - 48) with v
    end;
    cbv iota; f_equal; lia.
Qed.

Lemma read_digits_uint (d : Decimal.uint) :
  read_digits 0 (NilEmpty.string_of_uint d)
  = (Z.of_N (Pos.of_uint d), EmptyString).
Proof.
  induction d; cbn [NilEmpty.string_of_uint Pos.of_uint]; [reflexivity|exact IHd|..];
    (etransitivity; [|apply read_digits_acc]); reflexivity.
Qed.

Lemma int_of_digits (c : ascii) (s : string) :
  is_digit c = true ->
  int (String c s)
  = (let '(v, rest) := read_digits 0 (String c s) in
     match skip_spaces rest with
     | EmptyString => Ok v
     | _ => Raise (ValueError ("invalid literal for int() with base 10: " ++ String c s))
     end)
    /\ int (String "-" (String c s))
       = (let '(v, rest) := read_digits 0 (String c s) in
          match skip_spaces rest with
          | EmptyString => Ok (- v)
          | _ => Raise (ValueError ("invalid literal for int() with base 10: "
                                    ++ String "-" (String c s)))
          end).
Proof.
  destruct c as [[] [] [] [] [] [] [] []]; try discriminate; intros _;
    split; reflexivity.
Qed.

Lemma int_of_decimal (p : positive) :
  int (NilZero.string_of_uint (Pos.to_uint p)) = Ok (Z.pos p)
  /\ int (String "-" (NilZero.string_of_uint (Pos.to_uint p))) = Ok (Z.neg p).
Proof.
  pose proof (DecimalPos.Unsigned.to_uint_nonnil p) as Hnil.
  pose proof (DecimalPos.Unsigned.of_to p) as Hp.
  pose proof (uint_digits (Pos.to_uint p)) as Hd.
  pose proof (read_digits_uint (Pos.to_uint p)) as Hr.
  rewrite Hp in Hr. cbn [Z.of_N] in Hr.
  assert (E : NilZero.string_of_uint (Pos.to_uint p)
              = NilEmpty.string_of_uint (Pos.to_uint p))
    by (destruct (Pos.to_uint p); [congruence|reflexivity..]).
  rewrite E.
  destruct (NilEmpty.string_of_uint (Pos.to_uint p)) as [|c s] eqn:F.
  { destruct (Pos.to_uint p); [congruence|discriminate..]. }
  cbn [all_chars] in Hd. apply andb_true_iff in Hd as [Hc _].
  destruct (int_of_digits c s Hc) as [-> ->]. now rewrite Hr.
Qed.

(** [int] reads back what [str] writes. *)
Lemma int_str (z : Z) : int (str z) = Ok z.
Proof.
  destruct z as [|p|p]; [reflexivity|apply int_of_decimal..].
Qed.

Lemma int_raises (s : string) (e : exn) :
  int s = Raise e ->
  e = ValueError ("invalid literal for int() with base 10: " ++ s).
Proof.
  unfold int.
  destruct (match skip_spaces s with
            | String "-" r => (true, r)
            | String "+" r => (false, r)
            | _ => (false, skip_spaces s)
            end) as [negative s2].
  destruct (starts_with_digit (skip_spaces s2)); [|now intros [= <-]].
  destruct (read_digits 0 (skip_spaces s2)) as [v rest].
  destruct (skip_spaces rest); [discriminate|now intros [= <-]].
Qed.

(* ================================================================= *)
(** ** What a run prints and what it leaves behind *)

Lemma append_eq_self (s t : string) : s ++ t = s -> t = EmptyString.
Proof.
  induction s as [|c s IH]; cbn; [easy|]. intros [= H]. now apply IH.
Qed.

(** X8: the script prints to standard output exactly when it is given the
    wrong number of arguments, and then it prints the usage text; with one
    or two arguments it prints nothing there, however the run ends. *)
Theorem X8_prints_only_usage (argv : list string) (w : world) :
  (stdout (snd (main argv w)) = stdout w
   <-> List.length (tl argv) = 1%nat \/ List.length (tl argv) = 2%nat)
  /\ (stdout (snd (main argv w)) = stdout w
      \/ stdout (snd (main argv w)) = stdout w ++ usage_text).
Proof.
  rewrite main_run.
  assert (U : stdout w ++ usage_text <> stdout w).
  { intros E. apply append_eq_self in E. discriminate. }
  destruct (tl argv) as [|path [|depth [|extra rest]]]; cbn [List.length snd stdout].
  - split; [|now right]. split; [congruence|intros [|]; discriminate].
  - destruct (writable w path); (split; [|now left]); split; auto.
  - destruct (writable w path); [destruct (int depth)|];
      (split; [|now left]); split; auto.
  - split; [|now right]. split; [congruence|intros [|]; discriminate].
Qed.

(** X9: a destination that cannot be opened ends the run with an IOError
    and exit status 1 before anything else is looked at: nothing is
    printed, no file is touched, and this is so even when the depth
    argument is not a number. *)
Theorem X9_unopenable_destination
    (script path : string) (more : list string) (w : world)
    (Hmore : (List.length more <= 1)%nat) (Hw : writable w path = false) :
  main (script :: path :: more) w = (Raise IOError, w)
  /\ exit_status (fst (main (script :: path :: more) w)) = 1.
Proof.
  rewrite main_run. cbn [tl].
  destruct more as [|depth [|extra rest]]; [| |cbn in Hmore; lia];
    rewrite Hw; split; reflexivity.
Qed.

Lemma X9_unopenable_destination_witness :
  main ["generate_macros.py"; EmptyString; "deep"] empty_world
  = (Raise IOError, empty_world).
Proof.
  apply (X9_unopenable_destination
           "generate_macros.py" EmptyString ["deep"] empty_world);
    [cbn; lia|reflexivity].
Defined.

(** X10: a depth argument that [int] rejects is found out only after the
    destination has been opened.  The run ends with a ValueError and exit
    status 1, and the destination is left empty whatever it held before;
    every other file is untouched and nothing is printed. *)
Theorem X10_rejected_depth_empties_destination
    (script path depth : string) (e : exn) (w : world)
    (Hw : writable w path = true) (He : int depth = Raise e) :
  fst (main [script; path; depth] w)
  = Raise (ValueError ("invalid literal for int() with base 10: " ++ depth))
  /\ exit_status (fst (main [script; path; depth] w)) = 1
  /\ wrote path EmptyString w (snd (main [script; path; depth] w)).
Proof.
  pose proof (int_raises depth e He) as ->.
  rewrite main_run. cbn [tl]. rewrite Hw, He.
  split; [reflexivity|]. split; [reflexivity|].
  split; [|split; reflexivity]. intros p. reflexivity.
Qed.

Lemma X10_rejected_depth_empties_destination_witness :
  exit_status (fst (main ["generate_macros.py"; "out.hpp"; "1e2"] empty_world)) = 1
  /\ files (snd (main ["generate_macros.py"; "out.hpp"; "1e2"] empty_world)) "out.hpp"
     = Some EmptyString.
Proof.
  destruct (X10_rejected_depth_empties_destination
              "generate_macros.py" "out.hpp" "1e2"
              (ValueError "invalid literal for int() with base 10: 1e2")
              empty_world eq_refl eq_refl) as (_ & Hs & Hf & _).
  split; [exact Hs|exact (Hf "out.hpp")].
Defined.

(* ================================================================= *)
(** ** Depths far below zero *)

(** X11: from depth -3 down the counting pair is empty: the selector has
    no placeholder before [N], the reverse sequence lists no number at
    all, and the two lines written are the same for every such depth. *)
Theorem X11_counting_pair_below_minus_two (max_n : Z) (Hn : max_n <= -3) :
  arg_n_placeholders max_n = []
  /\ rseq_numbers max_n = []
  /\ arg_n_line max_n = "#define MANGROVE_PP_ARG_N( N, ...) N" ++ nl ++ nl
  /\ rseq_line max_n = "#define MANGROVE_PP_RSEQ_N() " ++ nl ++ nl.
Proof.
  assert (Ha : arg_n_placeholders max_n = []).
  { unfold arg_n_placeholders, range.
    now replace (Z.to_nat (max_n + 2 - 0)) with 0%nat by lia. }
  assert (Hr : rseq_numbers max_n = []).
  { unfold rseq_numbers, range_down.
    now replace (Z.to_nat (max_n + 2 - -1)) with 0%nat by lia. }
  unfold arg_n_line, rseq_line. rewrite Ha, Hr. repeat split.
Qed.

Lemma X11_counting_pair_below_minus_two_witness :
  arg_n_line (-3) = "#define MANGROVE_PP_ARG_N( N, ...) N" ++ nl ++ nl
  /\ rseq_line (-3) = "#define MANGROVE_PP_RSEQ_N() " ++ nl ++ nl.
Proof.
  destruct (X11_counting_pair_below_minus_two (-3)) as (_ & _ & Ha & Hr); [lia|].
  split; [exact Ha|exact Hr].
Defined.

(* ================================================================= *)
(** ** Running under the limits of CPython 2 *)

Lemma build_ok (lim : CPython.limits) (len : Z) (items : list Z) :
  len <= CPython.list_limit lim -> CPython.build lim len items = Ok items.
Proof.
  unfold CPython.list_limit, CPython.build. intros H.
  destruct (Z.ltb_spec (Z.of_N (CPython.maxint lim)) len); [lia|].
  destruct (Z.ltb_spec (Z.of_N (CPython.capacity lim)) len); [lia|reflexivity].
Qed.

Lemma build_raises (lim : CPython.limits) (len : Z) (items : list Z) :
  CPython.list_limit lim < len ->
  exists e, CPython.build lim len items = Raise e
            /\ (e = OverflowError \/ e = MemoryError).
Proof.
  unfold CPython.list_limit, CPython.build. intros H.
  destruct (Z.ltb_spec (Z.of_N (CPython.maxint lim)) len); [eauto|].
  destruct (Z.ltb_spec (Z.of_N (CPython.capacity lim)) len); [eauto|lia].
Qed.

Lemma build_overflow (lim : CPython.limits) (len : Z) (items : list Z) :
  Z.of_N (CPython.maxint lim) < len ->
  CPython.build lim len items = Raise OverflowError.
Proof.
  unfold CPython.build. intros H.
  destruct (Z.ltb_spec (Z.of_N (CPython.maxint lim)) len); [reflexivity|lia].
Qed.

Lemma list_limit_nonneg (lim : CPython.limits) : 0 <= CPython.list_limit lim.
Proof. unfold CPython.list_limit. lia. Qed.

(** Within the limit the variant is the one computed without limits. *)
Lemma cp_make_mangrove_child_ok (lim : CPython.limits) (n : Z) :
  n - 1 <= CPython.list_limit lim ->
  CPython.make_mangrove_child lim n = make_mangrove_child n.
Proof.
  intros H. unfold CPython.make_mangrove_child, make_mangrove_child, CPython.range.
  destruct (n <? 2); [reflexivity|]. now rewrite build_ok.
Qed.

Lemma cp_make_mangrove_child_raises (lim : CPython.limits) (n : Z) :
  2 <= n -> CPython.list_limit lim < n - 1 ->
  exists e, CPython.make_mangrove_child lim n = Raise e
            /\ (e = OverflowError \/ e = MemoryError).
Proof.
  intros Hn H. unfold CPython.make_mangrove_child, CPython.range.
  destruct (Z.ltb_spec n 2); [lia|].
  destruct (build_raises lim (n - 1) (range 1 n) H) as (e & -> & He). eauto.
Qed.

Lemma cp_loop_run (lim : CPython.limits) (xs : list Z) (written : string) :
  (forall i, In i xs -> 2 <= i /\ i - 1 <= CPython.list_limit lim) ->
  for_each xs (fun i =>
    s <- lift (CPython.make_mangrove_child lim i) ;;
    write s ;;;
    write (nl ++ nl)) written
  = (Ok tt, written ++ cat (map (fun i => child_text i ++ nl ++ nl) xs)).
Proof.
  revert written. induction xs as [|x xs IH]; intros written Hxs.
  - simpl. unfold ret. now rewrite append_nil_r.
  - destruct (Hxs x (or_introl eq_refl)) as [H2 Hfit].
    cbn [for_each map cat]. unfold bind at 1. unfold bind at 1.
    unfold lift at 1.
    rewrite cp_make_mangrove_child_ok, make_mangrove_child_ok by assumption.
    unfold bind at 1. unfold write at 1 2.
    rewrite IH by (intros i Hi; apply Hxs; now right).
    now rewrite !append_assoc.
Qed.

(** How [print_macros] ends: with the whole document, or at the first
    [range], after the header, or at the second, after the selector
    line.  The later lists are shorter and cannot fail once these two
    were built. *)
Lemma cp_print_macros_cases (lim : CPython.limits) (max_n : Z) (written : string) :
  (max_n + 3 <= CPython.list_limit lim
   /\ CPython.print_macros lim max_n written = (Ok tt, written ++ document max_n))
  \/ (CPython.list_limit lim < max_n + 2
      /\ exists e, (e = OverflowError \/ e = MemoryError)
           /\ CPython.print_macros lim max_n written = (Raise e, written ++ header))
  \/ (CPython.list_limit lim = max_n + 2
      /\ exists e, (e = OverflowError \/ e = MemoryError)
           /\ CPython.print_macros lim max_n written
              = (Raise e, written ++ header ++ arg_n_line max_n)).
Proof.
  assert (Hstep : forall (t : string) (k : M string unit) (s : string),
            (write t ;;; k) s = k (s ++ t)) by reflexivity.
  assert (Hok : forall (l : list Z) (k : list Z -> M string unit) (s : string),
            (x <- lift (Ok l) ;; k x) s = k l s) by reflexivity.
  assert (Hraise : forall (e : exn) (k : list Z -> M string unit) (s : string),
            (x <- lift (Raise e) ;; k x) s = (Raise e, s)) by reflexivity.
  destruct (Z_lt_le_dec (CPython.list_limit lim) (max_n + 2)) as [H1|H1].
  { right. left. split; [exact H1|].
    destruct (build_raises lim (max_n + 2 - 0) (range 0 (max_n + 2)) ltac:(lia))
      as (e & Hb & He).
    exists e. split; [exact He|].
    unfold CPython.print_macros, CPython.range.
    now rewrite Hstep, Hb, Hraise. }
  destruct (Z_lt_le_dec (CPython.list_limit lim) (max_n + 3)) as [H2|H2].
  { right. right. split; [lia|].
    destruct (build_raises lim (max_n + 2 - -1) (range_down (max_n + 2) (-1))
                ltac:(lia)) as (e & Hb & He).
    exists e. split; [exact He|].
    unfold CPython.print_macros, CPython.range, CPython.range_down.
    rewrite Hstep, build_ok, Hok, Hstep, Hb, Hraise by lia.
    unfold arg_n_line, arg_n_placeholders. now rewrite !append_assoc. }
  left. split; [exact H2|].
  unfold CPython.print_macros, CPython.range, CPython.range_down.
  rewrite Hstep, build_ok, Hok, Hstep by lia.
  rewrite build_ok, Hok, Hstep, Hstep by lia.
  rewrite build_ok, Hok by lia.
  unfold bind at 1.
  rewrite cp_loop_run by (intros i Hi; apply range_In in Hi; lia).
  unfold bind, write.
  rewrite document_eq.
  unfold document_sans_trailer, children, variant_lines, arg_n_line, rseq_line,
    arg_n_placeholders, rseq_numbers, trailer.
  now rewrite !append_assoc.
Qed.

Lemma cp_print_macros_ok (lim : CPython.limits) (max_n : Z) (written : string) :
  max_n + 3 <= CPython.list_limit lim ->
  CPython.print_macros lim max_n written = (Ok tt, written ++ document max_n).
Proof.
  intros H.
  destruct (cp_print_macros_cases lim max_n written)
    as [[_ E]|[[G _]|[G _]]]; [exact E|lia..].
Qed.

(** Within the limit [print_macros] does what it does without limits. *)
Lemma cp_print_macros_agrees (lim : CPython.limits) (max_n : Z) (written : string) :
  max_n + 3 <= CPython.list_limit lim ->
  CPython.print_macros lim max_n written = print_macros max_n written.
Proof.
  intros H. now rewrite cp_print_macros_ok, print_macros_run, document_eq.
Qed.

Lemma cp_test_against (lim : CPython.limits) (reference : string) :
  2 <= CPython.list_limit lim ->
  CPython.test_against lim reference = test_against reference.
Proof.
  intros H. unfold CPython.test_against, test_against.
  now rewrite cp_make_mangrove_child_ok by lia.
Qed.

Lemma cp_main_with_run
    (lim : CPython.limits) (reference : string) (argv : list string) (w : world) :
  CPython.main_with lim reference argv w
  = match CPython.test_against lim reference with
    | Raise e => (Raise e, w)
    | Ok _ =>
        match tl argv with
        | [path] =>
            if writable w path
            then (fst (CPython.print_macros lim MAX_BSON_DEPTH EmptyString),
                  set_file path
                    (snd (CPython.print_macros lim MAX_BSON_DEPTH EmptyString))
                    (set_file path EmptyString w))
            else (Raise IOError, w)
        | [path; depth] =>
            if writable w path
            then match int depth with
                 | Ok max_n =>
                     (fst (CPython.print_macros lim max_n EmptyString),
                      set_file path
                        (snd (CPython.print_macros lim max_n EmptyString))
                        (set_file path EmptyString w))
                 | Raise e => (Raise e, set_file path EmptyString w)
                 end
            else (Raise IOError, w)
        | _ =>
            (Raise (SystemExit None),
             mkWorld (files w) (writable w) (stdout w ++ usage_text))
        end
    end.
Proof.
  assert (Hfile : forall path n,
    on_file path (CPython.print_macros lim n) (set_file path EmptyString w)
    = (fst (CPython.print_macros lim n EmptyString),
       set_file path (snd (CPython.print_macros lim n EmptyString))
         (set_file path EmptyString w))).
  { intros path n. unfold on_file.
    cbn [files set_file]. rewrite String.eqb_refl.
    now destruct (CPython.print_macros lim n EmptyString). }
  assert (Husage : usage w
    = (Raise (SystemExit None),
       mkWorld (files w) (writable w) (stdout w ++ usage_text))).
  { unfold usage, bind, print, raise, usage_text. cbn [files writable stdout].
    now rewrite !append_assoc. }
  unfold CPython.main_with. unfold bind at 1. unfold lift at 1.
  destruct (CPython.test_against lim reference) as [[]|e]; [|reflexivity].
  destruct (tl argv) as [|path [|depth [|extra rest]]].
  - unfold bind at 1. cbn [List.length Nat.eqb orb negb]. now rewrite Husage.
  - unfold bind at 1. cbn [List.length Nat.eqb orb negb]. unfold ret at 1.
    unfold bind at 1. unfold open_w.
    destruct (writable w path); [|reflexivity].
    cbn [List.length Nat.eqb]. apply Hfile.
  - unfold bind at 1. cbn [List.length Nat.eqb orb negb]. unfold ret at 1.
    unfold bind at 1. unfold open_w.
    destruct (writable w path); [|reflexivity].
    cbn [List.length Nat.eqb]. unfold bind at 1. unfold lift at 1.
    cbn [nth]. destruct (int depth) as [n|e]; [apply Hfile|reflexivity].
  - unfold bind at 1. cbn [List.length Nat.eqb orb negb]. now rewrite Husage.
Qed.

Lemma cp_test_passes (lim : CPython.limits) :
  2 <= CPython.list_limit lim ->
  CPython.test_against lim REFERENCE_MACRO_3 = Ok tt.
Proof. intros H. now rewrite cp_test_against, test_passes. Qed.

Lemma limits64_limit : CPython.list_limit CPython.limits64 = 1152921504606846975.
Proof. reflexivity. Qed.

Lemma cp_print_macros_overflow (lim : CPython.limits) (max_n : Z) (written : string) :
  Z.of_N (CPython.maxint lim) < max_n + 2 ->
  CPython.print_macros lim max_n written = (Raise OverflowError, written ++ header).
Proof.
  intros H. unfold CPython.print_macros, CPython.range.
  unfold bind at 1. unfold write at 1. unfold bind at 1. unfold lift at 1.
  now rewrite build_overflow by lia.
Qed.

(** Where nothing is too long, the script runs as it does without
    limits. *)
Lemma cp_main_agrees (lim : CPython.limits) (argv : list string) (w : world) :
  2 <= CPython.list_limit lim ->
  match tl argv with
  | [_] => MAX_BSON_DEPTH + 3 <= CPython.list_limit lim
  | [_; depth] =>
      match int depth with
      | Ok max_n => max_n + 3 <= CPython.list_limit lim
      | Raise _ => True
      end
  | _ => True
  end ->
  CPython.main lim argv w = main argv w.
Proof.
  intros Hself Hfit. unfold CPython.main.
  rewrite cp_main_with_run, cp_test_passes, main_run by exact Hself.
  destruct (tl argv) as [|path [|depth [|extra rest]]]; try reflexivity.
  - now rewrite cp_print_macros_ok.
  - destruct (int depth) as [max_n|e]; [|reflexivity].
    now rewrite cp_print_macros_ok.
Qed.

Lemma document_not_header (max_n : Z) : document max_n <> header.
Proof.
  rewrite document_eq. unfold document_sans_trailer.
  rewrite append_assoc. intros E. apply append_eq_self in E.
  unfold arg_n_line in E. discriminate.
Qed.

(* ================================================================= *)
(** ** Depths that are too large *)

(** C10, as stated, fails at a depth beyond any C long: [range(max_n + 2)]
    raises an OverflowError when only the header has been written, so
    [print_macros] does raise and its output has neither counting macro
    nor the MANGROVE_CHILD1 line. *)
Lemma C10_counterexample :
  CPython.print_macros CPython.limits64 1000000000000000000000000000000 EmptyString
  = (Raise OverflowError, header).
Proof. rewrite cp_print_macros_overflow; [reflexivity|]. cbn. lia. Qed.

(** C10, amended: for every integer [max_n], zero and negative ones
    included, for which [range] can build its lists (the longest has
    [max_n + 3] items), [print_macros] ends without raising.  What it
    writes starts with the fixed header, goes on with the two
    counting-macro definitions and the fixed MANGROVE_CHILD1 line, and
    ends with the trailing boilerplate; it defines each counting macro
    once and MANGROVE_CHILD1 exactly once; and it has [max_n - 1] variants
    of depth 2 or more, which is none at all when [max_n < 2]. *)
Theorem C10_print_macros_within_limits
    (lim : CPython.limits) (max_n : Z) (written : string)
    (Hfit : max_n + 3 <= CPython.list_limit lim) :
  CPython.print_macros lim max_n written = (Ok tt, written ++ document max_n)
  /\ document max_n
     = header ++ arg_n_line max_n ++ rseq_line max_n ++ child1_line
       ++ cat (variant_lines max_n) ++ trailer
  /\ occurrences "#define MANGROVE_PP_ARG_N(" (document max_n) = 1%nat
  /\ occurrences "#define MANGROVE_PP_RSEQ_N(" (document max_n) = 1%nat
  /\ occurrences "#define MANGROVE_CHILD1(" (document max_n) = 1%nat
  /\ variant_lines max_n
     = map (fun i => child_text i ++ nl ++ nl)
         (map (fun k => 2 + Z.of_nat k) (seq 0 (Z.to_nat (max_n - 1))))
  /\ occurrences "#define MANGROVE_CHILD" (document max_n)
     = (1 + Z.to_nat (max_n - 1))%nat.
Proof.
  destruct (document_counts max_n) as (Hc & H1 & Ha & Hr).
  split; [now apply cp_print_macros_ok|]. split.
  { rewrite document_eq. unfold document_sans_trailer, children.
    now rewrite !append_assoc. }
  split; [exact Ha|]. split; [exact Hr|]. split; [exact H1|]. split.
  { unfold variant_lines, range. do 3 f_equal. lia. }
  exact Hc.
Qed.

Lemma C10_print_macros_within_limits_witness :
  CPython.print_macros CPython.limits64 (-7) EmptyString = (Ok tt, document (-7))
  /\ CPython.print_macros CPython.limits64 0 EmptyString = (Ok tt, document 0).
Proof.
  split.
  - apply (C10_print_macros_within_limits CPython.limits64 (-7) EmptyString).
    rewrite limits64_limit. lia.
  - apply (C10_print_macros_within_limits CPython.limits64 0 EmptyString).
    rewrite limits64_limit. lia.
Defined.

(** C6, as stated, fails both ways: depth 1 is at least 1 and
    [make_mangrove_child] rejects it, and depth 0 is below 1 and
    [print_macros] generates a document for it without any error.  It
    fails as well at a depth beyond any C long, which is at least 1 and
    for which [range(1, N)] raises an OverflowError. *)
Lemma C6_counterexample :
  (1 >= 1
   /\ make_mangrove_child 1
      = Raise (ValueError "Argument n must be at least 2. Received n=1.")
   /\ 0 < 1
   /\ fst (print_macros 0 EmptyString) = Ok tt)
  /\ (CPython.make_mangrove_child CPython.limits64 1
      = Raise (ValueError "Argument n must be at least 2. Received n=1.")
      /\ fst (CPython.print_macros CPython.limits64 0 EmptyString) = Ok tt
      /\ huge >= 1
      /\ CPython.make_mangrove_child CPython.limits64 huge = Raise OverflowError).
Proof.
  split.
  - split; [lia|]. split; [reflexivity|]. split; [lia|].
    now rewrite print_macros_run.
  - split; [reflexivity|]. split.
    + rewrite cp_print_macros_ok; [reflexivity|]. rewrite limits64_limit. lia.
    + split; [unfold huge; lia|].
      unfold CPython.make_mangrove_child, CPython.range.
      change (huge <? 2) with false. cbv iota.
      rewrite build_overflow; [reflexivity|]. unfold huge. cbn. lia.
Qed.

(** C6, amended: [make_mangrove_child(N)] fails with a ValueError if and
    only if [N < 2] (so also for [N = 1]); it succeeds exactly for the
    [N >= 2] for which [range(1, N)] can build its [N - 1] items; when it
    fails nothing has been written to the output; and [print_macros]
    fails for no depth whose lists [range] can build, because it writes
    the depth-1 macro as a fixed line and calls [make_mangrove_child]
    from depth 2 on only. *)
Theorem C6_invalid_depth (lim : CPython.limits) (N : Z) (written : string) :
  (N < 2 <-> exists msg, CPython.make_mangrove_child lim N = Raise (ValueError msg))
  /\ (2 <= N /\ N - 1 <= CPython.list_limit lim
      <-> CPython.make_mangrove_child lim N = Ok (child_text N))
  /\ (forall e,
        fst ((s <- lift (CPython.make_mangrove_child lim N) ;; write s) written)
        = Raise e ->
        snd ((s <- lift (CPython.make_mangrove_child lim N) ;; write s) written)
        = written)
  /\ (N + 3 <= CPython.list_limit lim ->
        fst (CPython.print_macros lim N written) = Ok tt).
Proof.
  assert (Hlow : N < 2 ->
            CPython.make_mangrove_child lim N
            = Raise (ValueError ("Argument n must be at least 2. Received n="
                                 ++ str N ++ "."))).
  { intros H. unfold CPython.make_mangrove_child.
    destruct (Z.ltb_spec N 2); [reflexivity|lia]. }
  split; [|split; [|split]].
  - split.
    + intros H. eexists. now apply Hlow.
    + intros [msg H]. destruct (Z.lt_ge_cases N 2) as [|G]; [assumption|].
      destruct (Z_le_gt_dec (N - 1) (CPython.list_limit lim)) as [F|F].
      * rewrite cp_make_mangrove_child_ok, make_mangrove_child_ok in H
          by assumption. discriminate.
      * destruct (cp_make_mangrove_child_raises lim N G ltac:(lia))
          as (e & E & [->| ->]); rewrite E in H; discriminate.
  - split.
    + intros [G F]. now rewrite cp_make_mangrove_child_ok, make_mangrove_child_ok.
    + intros H. destruct (Z.lt_ge_cases N 2) as [G|G].
      { rewrite Hlow in H by exact G. discriminate. }
      split; [exact G|].
      destruct (Z_le_gt_dec (N - 1) (CPython.list_limit lim)) as [F|F];
        [exact F|].
      destruct (cp_make_mangrove_child_raises lim N G ltac:(lia))
        as (e & E & _). rewrite E in H. discriminate.
  - intros e. unfold bind, lift, write.
    destruct (CPython.make_mangrove_child lim N); [discriminate|reflexivity].
  - intros H. now rewrite cp_print_macros_ok.
Qed.

Lemma C6_invalid_depth_witness :
  CPython.make_mangrove_child CPython.limits64 2 = Ok (child_text 2)
  /\ fst (CPython.print_macros CPython.limits64 1 EmptyString) = Ok tt.
Proof.
  destruct (C6_invalid_depth CPython.limits64 2 EmptyString) as (_ & H2 & _ & _).
  destruct (C6_invalid_depth CPython.limits64 1 EmptyString) as (_ & _ & _ & H1).
  split.
  - apply H2. rewrite limits64_limit. lia.
  - apply H1. rewrite limits64_limit. lia.
Defined.

(** C7, as stated, fails with no argument at all: the usage message is
    printed and the process exits with status 0, not with a non-zero
    status.  It also fails with two arguments of which the second is not a
    number: the destination is left empty and the status is 1.  And it
    fails with a depth beyond any C long: the status is 1 and the
    destination holds the header only. *)
Lemma C7_counterexample :
  (List.length (tl ["generate_macros.py"]) <> 1%nat
   /\ List.length (tl ["generate_macros.py"]) <> 2%nat
   /\ stdout (snd (main ["generate_macros.py"] empty_world)) = usage_text
   /\ exit_status (fst (main ["generate_macros.py"] empty_world)) = 0)
  /\ (List.length (tl ["generate_macros.py"; "out.hpp"; "deep"]) = 2%nat
      /\ exit_status (fst (main ["generate_macros.py"; "out.hpp"; "deep"] empty_world)) = 1
      /\ files (snd (main ["generate_macros.py"; "out.hpp"; "deep"] empty_world)) "out.hpp"
         = Some EmptyString)
  /\ (exit_status
        (fst (CPython.main CPython.limits64 ["generate_macros.py"] empty_world)) = 0
      /\ int "1000000000000000000000000000000" = Ok huge
      /\ exit_status
           (fst (CPython.main CPython.limits64
                   ["generate_macros.py"; "out.hpp"; "1000000000000000000000000000000"]
                   empty_world)) = 1
      /\ files
           (snd (CPython.main CPython.limits64
                   ["generate_macros.py"; "out.hpp"; "1000000000000000000000000000000"]
                   empty_world))
           "out.hpp"
         = Some header).
Proof.
  assert (Hself : 2 <= CPython.list_limit CPython.limits64)
    by (rewrite limits64_limit; lia).
  assert (Hint : int "1000000000000000000000000000000" = Ok huge)
    by (vm_compute; reflexivity).
  rewrite !main_run. unfold CPython.main.
  rewrite !cp_main_with_run, cp_test_passes by exact Hself.
  cbn [tl]. rewrite Hint.
  rewrite (cp_print_macros_overflow CPython.limits64 huge EmptyString)
    by (unfold huge; cbn; lia).
  split; [|split].
  - split; [discriminate|]. split; [discriminate|]. split; reflexivity.
  - split; [reflexivity|]. split; reflexivity.
  - split; [reflexivity|]. split; [reflexivity|]. split; reflexivity.
Qed.

(** C7, amended: when the number of command-line arguments is not 1 or 2
    the program prints the usage message and exits, with status 0, and no
    file is written; when it is 1 or 2, the destination can be opened for
    writing, the depth argument, if there is one, is an integer, and the
    depth (100 by default) is one for which [range] can build its lists,
    the program writes the full generated document to the destination and
    exits with status 0. *)
Theorem C7_exit_behaviour (lim : CPython.limits) (argv : list string) (w : world)
    (Hself : 2 <= CPython.list_limit lim) :
  (List.length (tl argv) <> 1%nat -> List.length (tl argv) <> 2%nat ->
     CPython.main lim argv w
     = (Raise (SystemExit None),
        mkWorld (files w) (writable w) (stdout w ++ usage_text))
     /\ exit_status (fst (CPython.main lim argv w)) = 0)
  /\ (forall path,
        tl argv = [path] -> writable w path = true ->
        100 + 3 <= CPython.list_limit lim ->
        fst (CPython.main lim argv w) = Ok tt
        /\ exit_status (fst (CPython.main lim argv w)) = 0
        /\ wrote path (document 100) w (snd (CPython.main lim argv w)))
  /\ (forall path depth max_n,
        tl argv = [path; depth] -> writable w path = true ->
        int depth = Ok max_n ->
        max_n + 3 <= CPython.list_limit lim ->
        fst (CPython.main lim argv w) = Ok tt
        /\ exit_status (fst (CPython.main lim argv w)) = 0
        /\ wrote path (document max_n) w (snd (CPython.main lim argv w))).
Proof.
  unfold CPython.main. rewrite cp_main_with_run, cp_test_passes by exact Hself.
  split; [|split].
  - intros H1 H2.
    destruct (tl argv) as [|path [|depth [|extra rest]]];
      solve [split; reflexivity | now elim H1 | now elim H2].
  - intros path -> -> Hfit. rewrite cp_print_macros_ok by exact Hfit.
    repeat split; apply (wrote_set_file path _ w).
  - intros path depth max_n -> -> -> Hfit.
    rewrite cp_print_macros_ok by exact Hfit.
    repeat split; apply (wrote_set_file path _ w).
Qed.

Lemma C7_exit_behaviour_witness :
  exit_status (fst (CPython.main CPython.limits64
                      ["generate_macros.py"; "a"; "b"; "c"] empty_world)) = 0
  /\ files (snd (CPython.main CPython.limits64
                   ["generate_macros.py"; "out.hpp"] empty_world)) "out.hpp"
     = Some (document 100)
  /\ files (snd (CPython.main CPython.limits64
                   ["generate_macros.py"; "out.hpp"; "2"] empty_world)) "out.hpp"
     = Some (document 2).
Proof.
  assert (Hself : 2 <= CPython.list_limit CPython.limits64)
    by (rewrite limits64_limit; lia).
  destruct (C7_exit_behaviour CPython.limits64
              ["generate_macros.py"; "a"; "b"; "c"] empty_world Hself)
    as (Hu & _ & _).
  destruct (C7_exit_behaviour CPython.limits64
              ["generate_macros.py"; "out.hpp"] empty_world Hself)
    as (_ & H1 & _).
  destruct (C7_exit_behaviour CPython.limits64
              ["generate_macros.py"; "out.hpp"; "2"] empty_world Hself)
    as (_ & _ & H2).
  split; [|split].
  - apply Hu; discriminate.
  - destruct (H1 "out.hpp" eq_refl eq_refl) as (_ & _ & Hf & _).
    + rewrite limits64_limit. lia.
    + exact (Hf "out.hpp").
  - destruct (H2 "out.hpp" "2" 2 eq_refl eq_refl eq_refl) as (_ & _ & Hf & _).
    + rewrite limits64_limit. lia.
    + exact (Hf "out.hpp").
Defined.

(** X7: the depth argument is read as a decimal number.  [int] reads back
    what [str] writes; and given a destination that can be opened and, as
    second argument, the decimal text of an integer [D] for which [range]
    can build its lists, the script ends normally and the destination
    holds exactly the document of depth [D], nothing else being changed. *)
Theorem X7_depth_argument_is_decimal
    (lim : CPython.limits) (script path : string) (D : Z) (w : world)
    (Hself : 2 <= CPython.list_limit lim)
    (Hfit : D + 3 <= CPython.list_limit lim)
    (Hw : writable w path = true) :
  int (str D) = Ok D
  /\ fst (CPython.main lim [script; path; str D] w) = Ok tt
  /\ wrote path (document D) w (snd (CPython.main lim [script; path; str D] w)).
Proof.
  split; [apply int_str|].
  unfold CPython.main. rewrite cp_main_with_run, cp_test_passes by exact Hself.
  cbn [tl]. rewrite Hw, int_str, cp_print_macros_ok by exact Hfit.
  split; [reflexivity|apply (wrote_set_file path _ w)].
Qed.

Lemma X7_depth_argument_is_decimal_witness :
  fst (CPython.main CPython.limits64
         ["generate_macros.py"; "out.hpp"; str 12] empty_world) = Ok tt.
Proof.
  apply (X7_depth_argument_is_decimal
           CPython.limits64 "generate_macros.py" "out.hpp" 12 empty_world);
    [rewrite limits64_limit; lia | rewrite limits64_limit; lia | reflexivity].
Defined.

(* ================================================================= *)
(** ** What a run leaves at the destination *)

(** The destination once [print_macros] has run on the freshly opened
    file. *)
Lemma after_print_macros (lim : CPython.limits) (max_n : Z) (path : string) (w : world) :
  let r := CPython.print_macros lim max_n EmptyString in
  let w' := set_file path (snd r) (set_file path EmptyString w) in
  (forall p, p <> path -> files w' p = files w p)
  /\ (fst r = Ok tt -> files w' path = Some (document max_n))
  /\ (fst r <> Ok tt ->
      files w' path = Some header
      \/ files w' path = Some (header ++ arg_n_line max_n)).
Proof.
  cbn zeta. split; [|split].
  - intros p Hp. cbn [files set_file].
    destruct (String.eqb_spec p path); [contradiction|reflexivity].
  - cbn [files set_file]. rewrite String.eqb_refl.
    destruct (cp_print_macros_cases lim max_n EmptyString)
      as [[_ E]|[(_ & e & _ & E)|(_ & e & _ & E)]]; rewrite E; cbn [fst snd];
      [reflexivity|discriminate..].
  - cbn [files set_file]. rewrite String.eqb_refl.
    destruct (cp_print_macros_cases lim max_n EmptyString)
      as [[_ E]|[(_ & e & _ & E)|(_ & e & _ & E)]]; rewrite E; cbn [fst snd];
      intros H; [now elim H|now left|now right].
Qed.

(** C8, as stated, fails in two ways.  With a second argument that is not
    a number, the run fails after the destination has been opened: a
    complete document that was there is replaced by an empty file.  With
    a depth beyond any C long, the run fails inside [print_macros]: the
    destination is left holding the header alone, which is neither empty
    nor a complete document. *)
Lemma C8_counterexample :
  (files world_with_output "out.hpp" = Some (document 3)
   /\ exit_status
        (fst (CPython.main CPython.limits64
                ["generate_macros.py"; "out.hpp"; "deep"] world_with_output)) = 1
   /\ files
        (snd (CPython.main CPython.limits64
                ["generate_macros.py"; "out.hpp"; "deep"] world_with_output))
        "out.hpp"
      = Some EmptyString)
  /\ (int "1000000000000000000000000000000" = Ok huge
      /\ fst (CPython.main CPython.limits64
                ["generate_macros.py"; "out.hpp"; "1000000000000000000000000000000"]
                empty_world)
         = Raise OverflowError
      /\ files
           (snd (CPython.main CPython.limits64
                   ["generate_macros.py"; "out.hpp"; "1000000000000000000000000000000"]
                   empty_world))
           "out.hpp"
         = Some header
      /\ header <> EmptyString
      /\ forall max_n, document max_n <> header).
Proof.
  assert (Hself : 2 <= CPython.list_limit CPython.limits64)
    by (rewrite limits64_limit; lia).
  assert (Hint : int "1000000000000000000000000000000" = Ok huge)
    by (vm_compute; reflexivity).
  unfold CPython.main. rewrite !cp_main_with_run, cp_test_passes by exact Hself.
  cbn [tl]. rewrite Hint.
  rewrite (cp_print_macros_overflow CPython.limits64 huge EmptyString)
    by (unfold huge; cbn; lia).
  split.
  - split; [reflexivity|]. split; reflexivity.
  - split; [reflexivity|]. split; [reflexivity|]. split; [reflexivity|].
    split; [discriminate|apply document_not_header].
Qed.

(** C8, amended: the depth-3 self-test is the first thing a run does, and
    when it fails nothing else has happened; a wrong number of arguments
    leaves every file as it was; no file other than the destination is
    ever changed; a run that ends normally leaves one complete generated
    document at the destination.  But the destination is opened, and so
    emptied, before the depth argument is parsed, and the document is
    written piece by piece: a run that fails leaves the destination as it
    was, or empty, or holding only the beginning of a document (the
    header, or the header and the selector line). *)
Theorem C8_what_a_run_leaves
    (lim : CPython.limits) (reference : string) (argv : list string) (w : world) :
  (CPython.test_against lim reference <> Ok tt ->
     snd (CPython.main_with lim reference argv w) = w
     /\ fst (CPython.main_with lim reference argv w) <> Ok tt)
  /\ (List.length (tl argv) <> 1%nat -> List.length (tl argv) <> 2%nat ->
        same_files w (snd (CPython.main_with lim reference argv w)))
  /\ (forall p,
        Some p <> hd_error (tl argv) ->
        files (snd (CPython.main_with lim reference argv w)) p = files w p)
  /\ (fst (CPython.main_with lim reference argv w) = Ok tt ->
        exists path max_n,
          hd_error (tl argv) = Some path
          /\ files (snd (CPython.main_with lim reference argv w)) path
             = Some (document max_n))
  /\ (fst (CPython.main_with lim reference argv w) <> Ok tt ->
        forall path,
          hd_error (tl argv) = Some path ->
          files (snd (CPython.main_with lim reference argv w)) path = files w path
          \/ files (snd (CPython.main_with lim reference argv w)) path
             = Some EmptyString
          \/ files (snd (CPython.main_with lim reference argv w)) path
             = Some header
          \/ exists max_n,
               files (snd (CPython.main_with lim reference argv w)) path
               = Some (header ++ arg_n_line max_n)).
Proof.
  rewrite cp_main_with_run.
  assert (Hprint : forall max_n path,
    let r := CPython.print_macros lim max_n EmptyString in
    let w' := set_file path (snd r) (set_file path EmptyString w) in
    (forall p, Some p <> Some path -> files w' p = files w p)
    /\ (fst r = Ok tt ->
        exists path' n, Some path = Some path' /\ files w' path' = Some (document n))
    /\ (fst r <> Ok tt ->
        forall path', Some path = Some path' ->
          files w' path' = files w path'
          \/ files w' path' = Some EmptyString
          \/ files w' path' = Some header
          \/ exists n, files w' path' = Some (header ++ arg_n_line n))).
  { intros max_n path. cbn zeta.
    destruct (after_print_macros lim max_n path w) as (Ho & Hd & Hf).
    split; [|split].
    - intros p Hp. apply Ho. congruence.
    - intros H. exists path, max_n. split; [reflexivity|now apply Hd].
    - intros H path' [= <-].
      destruct (Hf H) as [E|E]; [right; right; now left|].
      right. right. right. now exists max_n. }
  assert (Hsame : forall (o : outcome unit) (w' : world),
    o <> Ok tt -> (forall p, files w' p = files w p) ->
    (forall p, Some p <> hd_error (tl argv) -> files w' p = files w p)
    /\ (o = Ok tt ->
        exists path max_n,
          hd_error (tl argv) = Some path /\ files w' path = Some (document max_n))
    /\ (o <> Ok tt ->
        forall path, hd_error (tl argv) = Some path ->
          files w' path = files w path
          \/ files w' path = Some EmptyString
          \/ files w' path = Some header
          \/ exists max_n, files w' path = Some (header ++ arg_n_line max_n))).
  { intros o w' Ho Hw. split; [|split].
    - intros p _. apply Hw.
    - intros H. contradiction.
    - intros _ path _. left. apply Hw. }
  destruct (CPython.test_against lim reference) as [[]|e].
  - split; [intros H; now elim H|].
    destruct (tl argv) as [|path [|depth [|extra rest]]].
    + split; [intros _ _ p; reflexivity|].
      apply (Hsame (Raise (SystemExit None))); [discriminate|reflexivity].
    + split; [intros H; now elim H|].
      destruct (writable w path); cbn [fst snd hd_error].
      * apply (Hprint MAX_BSON_DEPTH path).
      * apply (Hsame (Raise IOError) w); [discriminate|reflexivity].
    + split; [intros _ H; now elim H|].
      destruct (writable w path); cbn [fst snd hd_error];
        [|apply (Hsame (Raise IOError) w); [discriminate|reflexivity]].
      destruct (int depth) as [max_n|e]; cbn [fst snd].
      * apply (Hprint max_n path).
      * split; [|split].
        -- intros p Hp. cbn [files set_file].
           destruct (String.eqb_spec p path); [congruence|reflexivity].
        -- discriminate.
        -- intros _ path' [= <-]. right. left.
           cbn [files set_file]. now rewrite String.eqb_refl.
    + split; [intros _ _ p; reflexivity|].
      apply (Hsame (Raise (SystemExit None))); [discriminate|reflexivity].
  - split; [intros _; split; [reflexivity|discriminate]|].
    split; [intros _ _ p; reflexivity|].
    apply (Hsame (Raise e) w); [discriminate|reflexivity].
Qed.

Lemma C8_what_a_run_leaves_witness :
  (snd (CPython.main_with CPython.limits64 "MANGROVE_CHILD3"
          ["generate_macros.py"; "out.hpp"] world_with_output)
   = world_with_output)
  /\ same_files world_with_output
       (snd (CPython.main CPython.limits64 ["generate_macros.py"] world_with_output))
  /\ (exists path max_n,
        hd_error (tl ["generate_macros.py"; "out.hpp"; "7"]) = Some path
        /\ files (snd (CPython.main CPython.limits64
                         ["generate_macros.py"; "out.hpp"; "7"] world_with_output))
             path
           = Some (document max_n)).
Proof.
  assert (Hself : 2 <= CPython.list_limit CPython.limits64)
    by (rewrite limits64_limit; lia).
  assert (Hlim : 7 + 3 <= CPython.list_limit CPython.limits64)
    by (rewrite limits64_limit; lia).
  split; [|split].
  - apply (C8_what_a_run_leaves CPython.limits64 "MANGROVE_CHILD3"
             ["generate_macros.py"; "out.hpp"] world_with_output).
    rewrite (cp_test_against CPython.limits64 "MANGROVE_CHILD3" Hself).
    vm_compute. discriminate.
  - apply (C8_what_a_run_leaves CPython.limits64 REFERENCE_MACRO_3
             ["generate_macros.py"] world_with_output); discriminate.
  - apply (C8_what_a_run_leaves CPython.limits64 REFERENCE_MACRO_3
             ["generate_macros.py"; "out.hpp"; "7"] world_with_output).
    pose proof (cp_main_agrees CPython.limits64
                  ["generate_macros.py"; "out.hpp"; "7"] world_with_output
                  Hself Hlim) as E.
    unfold CPython.main in E. rewrite E, main_run. reflexivity.
Defined.
